(** * Tool-call driver and response gate of the career and profile chatbots

    A shallow embedding of [connections-chat/app.py] (the tool-calling
    conversation driver) and of [profile-chatbot.py] (the evaluate-and-retry
    gate), with the properties the specification states about them.

    Python values are an inductive type.  The list objects the code names
    ([history], [messages]) live in a store, so that in-place [append] and
    [extend] are visible; neither script ever writes to a dict, so dicts are
    plain values.  Everything outside the two scripts (the model endpoints,
    the Pushover request, [json.loads], the process environment) is a field
    of a [world] record the definitions are parameterised by.  Every
    externally visible action is logged in a trace; the services read the
    trace, so they may answer the same request differently each time.
    Standard output is taken to accept the lines the scripts print, with the
    exception of the four lines [push] prints about its request: these start
    with a check mark or a cross, and whether such a line can be written is
    up to the world. *)

From Stdlib Require Import ZArith String Ascii List Lia Bool DecimalString.
From stdpp Require Import base list strings.

(** ** Python values, the store and the effect monad *)

Module Py.

(** [tool_call.id], [tool_call.function.name], [tool_call.function.arguments]. *)
Record tool_call := {
  id : string;
  function_name : string;
  function_arguments : string
}.

(** [response.choices[0].message]: its text and its tool calls, either of
    which may be [None]. *)
Record chat_message := {
  content : option string;
  tool_calls : option (list tool_call)
}.

(** [response.choices[0]]. *)
Record response := {
  finish_reason : string;
  message : chat_message
}.

(** The values the scripts handle.  Strings are sequences of code points
    below 256.  A float is kept as the text [json.dumps] prints for it.
    [PMessage] is the SDK's message object (appended to [messages] as it
    is); [PObj] is any other object that [json.dumps] refuses. *)
#[warnings="-register-all"]
Inductive pyval :=
| PNone
| PBool (b : bool)
| PInt (z : Z)
| PFloat (text : string)
| PStr (s : string)
| PList (l : list pyval)
| PDict (d : list (string * pyval))
| PMessage (m : chat_message)
| PObj (tag : string).

(** A dict is an association list in insertion order with distinct keys;
    [d.get(k)]. *)
Fixpoint dict_get {A} (k : string) (d : list (string * A)) : option A :=
  match d with
  | [] => None
  | (k', v) :: d' => if String.eqb k k' then Some v else dict_get k d'
  end.

Inductive exn :=
| JSONDecodeError
| TypeError
| AttributeError
| APIError (tag : string)
| UnicodeEncodeError.

(** What became of one [requests.post] inside [push]'s [try], up to the
    line that is printed about it: status 1, another status, a
    [RequestException], or any other [Exception]. *)
Inductive post_result := Delivered | Refused | RequestFailed | UnexpectedFailure.

(** The four lines [push] prints about the request.  Each starts with a
    check mark or a cross, characters that are outside the strings of this
    model and that a stdout may be unable to encode. *)
Inductive report_line := SentLine | RefusedLine | RequestErrorLine | UnexpectedLine.

(** [EvPrint] is a printed line of the model's strings, which stdout is
    taken to accept; [EvReport] is a report line that did get printed. *)
Inductive event :=
| EvCompletion (messages : list pyval)
| EvJudge (messages : list pyval)
| EvPrint (line : string)
| EvPost (payload_message : pyval) (r : post_result)
| EvImported (name : string) (kwargs : list (string * pyval))
| EvReport (line : report_line).

(** The pydantic model [Evaluation]. *)
Record Evaluation := {
  is_acceptable : bool;
  feedback : string
}.

Definition loc := nat.

(** The store of list objects, and the trace of actions so far. *)
Record state := {
  heap : list (list pyval);
  trace : list event
}.

(** A computation returns, raises, or is cut off by the iteration budget
    that makes the driver's [while] loop a structural recursion. *)
Inductive outcome (A : Type) :=
| Ret (a : A)
| Raise (e : exn)
| OutOfFuel.
Arguments Ret {A} a.
Arguments Raise {A} e.
Arguments OutOfFuel {A}.

Definition M (A : Type) : Type := state -> outcome A * state.

Definition ret {A} (a : A) : M A := fun s => (Ret a, s).
Definition raise {A} (e : exn) : M A := fun s => (Raise e, s).
Definition out_of_fuel {A} : M A := fun s => (OutOfFuel, s).

Definition bind {A B} (m : M A) (k : A -> M B) : M B :=
  fun s =>
    match m s with
    | (Ret a, s') => k a s'
    | (Raise e, s') => (Raise e, s')
    | (OutOfFuel, s') => (OutOfFuel, s')
    end.

Notation "'do' x <- m ; k" := (bind m (fun x => k))
  (at level 10, x name, m at level 99, k at level 200).
Notation "'do' ' p <- m ; k" := (bind m (fun x => match x with p => k end))
  (at level 10, p pattern, m at level 99, k at level 200).
Notation "m ;; k" := (bind m (fun _ => k))
  (at level 100, k at level 200, right associativity).

Definition emit (e : event) : M unit :=
  fun s => (Ret tt, {| heap := heap s; trace := trace s ++ [e] |}).

(** A service call: the answer is a function of the trace so far. *)
Definition ask {A} (oracle : list event -> A) : M A :=
  fun s => (Ret (oracle (trace s)), s).

(** A library call that returns or raises. *)
Definition lift {A} (r : exn + A) : M A :=
  match r with
  | inl e => raise e
  | inr a => ret a
  end.

(** [try: body] with a handler for whatever exception [body] raises; what
    the handler raises is not handled. *)
Definition try_except {A} (body : M A) (handler : exn -> M A) : M A :=
  fun s =>
    match body s with
    | (Raise e, s') => handler e s'
    | other => other
    end.

(** A new list object. *)
Definition alloc (l : list pyval) : M loc :=
  fun s => (Ret (length (heap s)), {| heap := heap s ++ [l]; trace := trace s |}).

Definition cell (a : loc) (s : state) : list pyval :=
  default [] (heap s !! a).

Definition read (a : loc) : M (list pyval) :=
  fun s => (Ret (cell a s), s).

(** [lst.extend(xs)], in place. *)
Definition list_extend (a : loc) (xs : list pyval) : M unit :=
  fun s => (Ret tt, {| heap := <[a := cell a s ++ xs]> (heap s); trace := trace s |}).

(** [lst.append(x)], in place. *)
Definition list_append (a : loc) (x : pyval) : M unit := list_extend a [x].

(** *** [json.dumps] with its default settings *)

Definition dquote : string := String (ascii_of_nat 34) EmptyString.

Definition hex_digit (n : nat) : ascii :=
  nth n (list_ascii_of_string "0123456789abcdef") "0"%char.

(** One character inside a JSON string: the short escapes, [\u00xx] for
    anything else outside space .. tilde. *)
Definition escape_char (c : ascii) : string :=
  let n := nat_of_ascii c in
  if Nat.eqb n 34 then "\" +:+ dquote
  else if Nat.eqb n 92 then "\\"
  else if Nat.eqb n 8 then "\b"
  else if Nat.eqb n 12 then "\f"
  else if Nat.eqb n 10 then "\n"
  else if Nat.eqb n 13 then "\r"
  else if Nat.eqb n 9 then "\t"
  else if (Nat.leb 32 n && Nat.leb n 126)%bool then String c EmptyString
  else "\u00" +:+ String (hex_digit (n / 16)) (String (hex_digit (n mod 16)) EmptyString).

Fixpoint escape_chars (s : string) : string :=
  match s with
  | EmptyString => EmptyString
  | String c s' => escape_char c +:+ escape_chars s'
  end.

Definition json_string (s : string) : string := dquote +:+ escape_chars s +:+ dquote.

Fixpoint join (sep : string) (l : list string) : string :=
  match l with
  | [] => EmptyString
  | [x] => x
  | x :: r => x +:+ sep +:+ join sep r
  end.

(** [None] is the [TypeError] for an object that is not serialisable. *)
Fixpoint json_dumps (v : pyval) : option string :=
  let fix items (l : list pyval) : option (list string) :=
    match l with
    | [] => Some []
    | x :: r =>
        match json_dumps x, items r with
        | Some s, Some ss => Some (s :: ss)
        | _, _ => None
        end
    end in
  let fix members (d : list (string * pyval)) : option (list string) :=
    match d with
    | [] => Some []
    | (k, x) :: r =>
        match json_dumps x, members r with
        | Some s, Some ss => Some ((json_string k +:+ ": " +:+ s) :: ss)
        | _, _ => None
        end
    end in
  match v with
  | PNone => Some "null"
  | PBool true => Some "true"
  | PBool false => Some "false"
  | PInt z => Some (NilZero.string_of_int (Z.to_int z))
  | PFloat text => Some text
  | PStr s => Some (json_string s)
  | PList l =>
      match items l with
      | Some ss => Some ("[" +:+ join ", " ss +:+ "]")
      | None => None
      end
  | PDict d =>
      match members d with
      | Some ss => Some ("{" +:+ join ", " ss +:+ "}")
      | None => None
      end
  | PMessage _ => None
  | PObj _ => None
  end.

(** [x in s] for strings: [needle] occurs in [s]. *)
Fixpoint contains (needle s : string) : bool :=
  if String.prefix needle s then true
  else match s with
       | EmptyString => false
       | String _ s' => contains needle s'
       end.

(** The message sequences sent to the completion endpoint, in order. *)
Definition model_calls (t : list event) : list (list pyval) :=
  flat_map (fun e => match e with EvCompletion sent => [sent] | _ => [] end) t.

Definition nl : string := String (ascii_of_nat 10) EmptyString.

(** Truth value of a string that may be [None]. *)
Definition str_truthy (o : option string) : bool :=
  match o with
  | Some (String _ _) => true
  | _ => false
  end.

Definition nonempty (s : string) : bool := str_truthy (Some s).

(** The text of each PDF page that has some, concatenated. *)
Definition extract_all (pages : list string) : string :=
  fold_left (fun acc text => if nonempty text then acc +:+ text else acc) pages EmptyString.

End Py.

Import Py.

(** ** connections-chat/app.py *)

Module ConnectionsChat.

(** The functions the module defines. *)
Inductive modfun :=
| Fpush
| Frecord_user_details
| Frecord_unknown_question
| Fhandle_tool_calls
| Fchat.

(** What a global name is bound to, as far as [handle_tool_calls] can
    tell: a function of this module, a callable imported from a library,
    or an object that cannot be called, with its truth value. *)
Inductive gobj :=
| GFun (f : modfun)
| GImported (name : string)
| GData (truthy : bool).

(** Everything the script takes from outside. *)
Record world := {
  (** [os.getenv] after [load_dotenv] *)
  getenv : string -> option string;
  (** [page.extract_text()] for each page of me/linkedin.pdf *)
  pdf_pages : list string;
  (** the text of me/summary.txt *)
  summary_txt : string;
  (** the names the interpreter itself binds in the module (the dunder names) *)
  interpreter_globals : string -> option gobj;
  (** [json.loads]; [None] is a [JSONDecodeError] *)
  json_loads : string -> option pyval;
  (** [str()] of a value that is not a string, number, boolean or [None] *)
  py_repr : pyval -> string;
  (** [openai.chat.completions.create(model="gpt-4o-mini", messages=..., tools=tools)] *)
  completions_create : list event -> list pyval -> exn + response;
  (** the [requests.post] to Pushover with what [push] makes of the answer *)
  requests_post : list event -> pyval -> post_result;
  (** [print] of a report line: [None] when it is written, and otherwise
      the exception of [print], which is no [RequestException] *)
  report_print : list event -> report_line -> option exn;
  (** a call of an imported callable with keyword arguments *)
  imported_call : string -> list (string * pyval) -> list event -> exn + pyval
}.

(** The JSON schema of an advertised tool, as far as names go. *)
Record tool_schema := {
  schema_name : string;
  properties : list string;
  required : list string
}.

Definition record_user_details_json : tool_schema :=
  {| schema_name := "record_user_details";
     properties := ["email"; "name"; "notes"];
     required := ["email"] |}.

Definition record_unknown_question_json : tool_schema :=
  {| schema_name := "record_unknown_question";
     properties := ["question"];
     required := ["question"] |}.

Definition tools : list tool_schema :=
  [record_user_details_json; record_unknown_question_json].

Definition advertised (tool_name : string) : bool :=
  existsb (fun t => String.eqb tool_name (schema_name t)) tools.

Section Script.

Context (W : world).

Definition pushover_user : option string := getenv W "PUSHOVER_USER".
Definition pushover_token : option string := getenv W "PUSHOVER_TOKEN".

Definition linkedin : string := extract_all (pdf_pages W).
Definition summary : string := summary_txt W.
Definition name : string := "Anjani Prakash".

Definition system_prompt : string :=
  "You are acting as " +:+ name +:+ ". You are answering questions on " +:+ name +:+ "'s website, "
  +:+ "particularly questions related to " +:+ name +:+ "'s career, background, skills and experience. "
  +:+ "Your responsibility is to represent " +:+ name +:+ " for interactions on the website as faithfully as possible. "
  +:+ "You are given a summary of " +:+ name +:+ "'s background and LinkedIn profile which you can use to answer questions. "
  +:+ "Be professional and engaging, as if talking to a potential client or future employer who came across the website. "
  +:+ "If you don't know the answer to any question, use your record_unknown_question tool to record the question that you couldn't answer, even if it's about something trivial or unrelated to career. "
  +:+ "If the user is engaging in discussion, try to steer them towards getting in touch via email; ask for their email and record it using your record_user_details tool."
  +:+ nl +:+ nl +:+ "## Summary:" +:+ nl +:+ summary +:+ nl +:+ nl
  +:+ "## LinkedIn Profile:" +:+ nl +:+ linkedin +:+ nl +:+ nl
  +:+ "With this context, please chat with the user, always staying in character as " +:+ name +:+ ".".

(** The module's own bindings once it is loaded, in the order the source
    makes them.  The loop variables [page] and [text] exist when the PDF has
    a page; a page object is a non-empty dictionary. *)
Definition module_globals : list (string * gobj) :=
  [ ("load_dotenv", GImported "load_dotenv");
    ("OpenAI", GImported "OpenAI");
    ("json", GData true);
    ("os", GData true);
    ("requests", GData true);
    ("PdfReader", GImported "PdfReader");
    ("gr", GData true);
    ("openai", GData true);
    ("pushover_user", GData (str_truthy pushover_user));
    ("pushover_token", GData (str_truthy pushover_token));
    ("pushover_url", GData true);
    ("push", GFun Fpush);
    ("record_user_details", GFun Frecord_user_details);
    ("record_unknown_question", GFun Frecord_unknown_question);
    ("record_user_details_json", GData true);
    ("record_unknown_question_json", GData true);
    ("tools", GData true);
    ("handle_tool_calls", GFun Fhandle_tool_calls);
    ("reader", GData true);
    ("linkedin", GData (nonempty linkedin)) ]
  ++ match last (pdf_pages W) with
     | Some text => [("page", GData true); ("text", GData (nonempty text))]
     | None => []
     end
  ++ [ ("f", GData true);
       ("summary", GData (nonempty summary));
       ("name", GData true);
       ("system_prompt", GData true);
       ("chat", GFun Fchat) ].

(** [globals().get(tool_name)]. *)
Definition globals_get (tool_name : string) : option gobj :=
  match dict_get tool_name module_globals with
  | Some g => Some g
  | None => interpreter_globals W tool_name
  end.

(** [if tool:] for a bound name; functions and classes are true. *)
Definition truthy (g : gobj) : bool :=
  match g with
  | GData b => b
  | _ => true
  end.

(** [str(v)], which is what an f-string field prints. *)
Definition py_str (v : pyval) : string :=
  match v with
  | PStr s => s
  | PNone => "None"
  | PBool true => "True"
  | PBool false => "False"
  | PInt z => NilZero.string_of_int (Z.to_int z)
  | _ => py_repr W v
  end.

Definition found_or_missing (o : option string) : string :=
  if str_truthy o then "Found" else "MISSING".

(** [print] of a report line. *)
Definition report (line : report_line) : M unit :=
  do refusal <- ask (fun t => report_print W t line);
  match refusal with
  | None => emit (EvReport line)
  | Some e => raise e
  end.

(** [push(message)].  The request and the two lines about its status sit
    inside the [try]: an exception of [print] there is for the second
    [except] clause.  Both clauses print a line of their own, and what that
    [print] raises leaves [push]. *)
Definition push (message : pyval) : M pyval :=
  emit (EvPrint ("Push: " +:+ py_str message));;
  if (negb (str_truthy pushover_user) || negb (str_truthy pushover_token))%bool then
    emit (EvPrint "ERROR: Pushover credentials not configured. Cannot send push notification.");;
    emit (EvPrint ("  pushover_user: " +:+ found_or_missing pushover_user));;
    emit (EvPrint ("  pushover_token: " +:+ found_or_missing pushover_token));;
    ret PNone
  else
    do r <- ask (fun t => requests_post W t message);
    emit (EvPost message r);;
    match r with
    | Delivered => try_except (report SentLine) (fun _ => report UnexpectedLine)
    | Refused => try_except (report RefusedLine) (fun _ => report UnexpectedLine)
    | RequestFailed => report RequestErrorLine
    | UnexpectedFailure => report UnexpectedLine
    end;;
    ret PNone.

Definition recorded_ok : pyval := PDict [("recorded", PStr "ok")].

Definition record_user_details (email name notes : pyval) : M pyval :=
  push (PStr ("Recording interest from " +:+ py_str name +:+ " with email " +:+ py_str email
              +:+ " and notes " +:+ py_str notes));;
  ret recorded_ok.

Definition record_unknown_question (question : pyval) : M pyval :=
  push (PStr ("Recording " +:+ py_str question +:+ " asked that I couldn't answer"));;
  ret recorded_ok.

(** *** Calling a global with [**arguments] *)

(** Binding keyword arguments to a signature: every keyword names a
    parameter and every parameter without a default is given; otherwise the
    call is a [TypeError]. *)
Definition accepts (required optional : list string) (kw : list (string * pyval)) : bool :=
  (forallb (fun k => existsb (String.eqb k) (required ++ optional)) (map fst kw)
   && forallb (fun k => match dict_get k kw with Some _ => true | None => false end) required)%bool.

Definition arg (k : string) (default_value : pyval) (kw : list (string * pyval)) : pyval :=
  default default_value (dict_get k kw).

(** [handle_tool_calls] entered with a decoded JSON value instead of the
    SDK's list: an empty sequence falls through the [for] and returns the
    empty [results]; the first element of a non-empty one (a member of the
    list, a key of the dict, a character of the string) has no attribute
    [function]; anything else cannot be iterated over. *)
Definition handle_tool_calls_on_value (tool_calls : pyval) : M pyval :=
  match tool_calls with
  | PList [] | PDict [] | PStr EmptyString => ret (PList [])
  | PList _ | PDict _ | PStr _ => raise AttributeError
  | _ => raise TypeError
  end.

(** The call of a name bound to [g] with the decoded arguments as
    keywords.  The arguments must be a mapping and the object callable, or
    the call is a [TypeError].  [chat_rec] is [chat] entered with decoded
    JSON values. *)
Definition call (chat_rec : pyval -> pyval -> M pyval) (g : gobj) (arguments : pyval) : M pyval :=
  match arguments with
  | PDict kw =>
      match g with
      | GData _ => raise TypeError
      | GImported callee =>
          emit (EvImported callee kw);;
          do r <- ask (imported_call W callee kw);
          lift r
      | GFun Fpush =>
          if accepts ["message"] [] kw then push (arg "message" PNone kw)
          else raise TypeError
      | GFun Frecord_user_details =>
          if accepts ["email"] ["name"; "notes"] kw then
            record_user_details (arg "email" PNone kw)
              (arg "name" (PStr "Name not provided") kw)
              (arg "notes" (PStr "not provided") kw)
          else raise TypeError
      | GFun Frecord_unknown_question =>
          if accepts ["question"] [] kw then record_unknown_question (arg "question" PNone kw)
          else raise TypeError
      | GFun Fhandle_tool_calls =>
          if accepts ["tool_calls"] [] kw then handle_tool_calls_on_value (arg "tool_calls" PNone kw)
          else raise TypeError
      | GFun Fchat =>
          if accepts ["message"; "history"] [] kw then
            chat_rec (arg "message" PNone kw) (arg "history" PNone kw)
          else raise TypeError
      end
  | _ => raise TypeError
  end.

(** *** [handle_tool_calls] *)

Definition tool_message (content tool_call_id : string) : pyval :=
  PDict [("role", PStr "tool"); ("content", PStr content); ("tool_call_id", PStr tool_call_id)].

(** The body of the [for] loop, with [results] as it stands. *)
Fixpoint handle_each (chat_rec : pyval -> pyval -> M pyval)
    (tool_calls : list tool_call) (results : list pyval) : M (list pyval) :=
  match tool_calls with
  | [] => ret results
  | tool_call :: rest =>
      let tool_name := function_name tool_call in
      do arguments <-
        match json_loads W (function_arguments tool_call) with
        | Some v => ret v
        | None => raise JSONDecodeError
        end;
      emit (EvPrint ("Tool called: " +:+ tool_name));;
      let tool := globals_get tool_name in
      do result <-
        match tool with
        | Some g => if truthy g then call chat_rec g arguments else ret (PDict [])
        | None => ret (PDict [])
        end;
      do content <-
        match json_dumps result with
        | Some text => ret text
        | None => raise TypeError
        end;
      handle_each chat_rec rest (results ++ [tool_message content (id tool_call)])
  end.

(** [message_obj.tool_calls] may be [None], which cannot be iterated over. *)
Definition handle_tool_calls (chat_rec : pyval -> pyval -> M pyval)
    (tool_calls : option (list tool_call)) : M (list pyval) :=
  match tool_calls with
  | Some tcs => handle_each chat_rec tcs []
  | None => raise TypeError
  end.

(** *** [chat] *)

Definition system_message : pyval :=
  PDict [("role", PStr "system"); ("content", PStr system_prompt)].

Definition user_message (message : pyval) : pyval :=
  PDict [("role", PStr "user"); ("content", message)].

(** One pass through the body of [while not done]: the new value of
    [done], and [response]. *)
Definition iteration (chat_rec : pyval -> pyval -> M pyval) (messages : loc) : M (bool * response) :=
  do sent <- read messages;
  do answer <- ask (fun t => completions_create W t sent);
  emit (EvCompletion sent);;
  do response <- lift answer;
  if String.eqb (finish_reason response) "tool_calls" then
    let message_obj := message response in
    do results <- handle_tool_calls chat_rec (tool_calls message_obj);
    list_append messages (PMessage message_obj);;
    list_extend messages results;;
    ret (false, response)
  else
    ret (true, response).

(** [chat] from the line that builds [messages] on, given the loop. *)
Definition chat_with (loop : loc -> M (option string)) (message : pyval) (history : loc)
  : M (option string) :=
  do past <- read history;
  do messages <- alloc ([system_message] ++ past ++ [user_message message]);
  loop messages.

Definition content_value (c : option string) : pyval :=
  match c with
  | Some text => PStr text
  | None => PNone
  end.

(** [chat] reached through [globals()] with decoded values: [history] must
    be a list for the concatenation, and is a list object of its own. *)
Definition chat_on_values (loop : loc -> M (option string)) (message history : pyval) : M pyval :=
  match history with
  | PList l =>
      do h <- alloc l;
      do reply <- chat_with loop message h;
      ret (content_value reply)
  | _ => raise TypeError
  end.

(** The [while not done] loop, at most [n] passes deep. *)
Fixpoint chat_loop (n : nat) (messages : loc) : M (option string) :=
  match n with
  | 0 => out_of_fuel
  | S n' =>
      do '(done, response) <- iteration (chat_on_values (chat_loop n')) messages;
      if (done : bool) then ret (content (message response))
      else chat_loop n' messages
  end.

Definition chat (n : nat) (message : pyval) (history : loc) : M (option string) :=
  chat_with (chat_loop n) message history.

(** *** Observations the statements below are about *)

(** [chat] as a tool call can reach it from a loop with [n] passes left. *)
Definition nested_chat (n : nat) : pyval -> pyval -> M pyval :=
  chat_on_values (chat_loop n).

(** The rest of a pass once the endpoint has answered: [iteration] from
    the line after the call on. *)
Definition after_answer (chat_rec : pyval -> pyval -> M pyval) (messages : loc)
    (answer : exn + response) : M (bool * response) :=
  do response <- lift answer;
  if String.eqb (finish_reason response) "tool_calls" then
    let message_obj := message response in
    do results <- handle_tool_calls chat_rec (tool_calls message_obj);
    list_append messages (PMessage message_obj);;
    list_extend messages results;;
    ret (false, response)
  else
    ret (true, response).

(** The message sequences the loop at [messages] itself passes to the
    endpoint, one per pass, as opposed to those of a [chat] nested in one of
    its tool calls. *)
Fixpoint loop_sends (n : nat) (messages : loc) (s : state) : list (list pyval) :=
  match n with
  | 0 => []
  | S n' =>
      cell messages s ::
      match iteration (nested_chat n') messages s with
      | (Ret (false, _), s') => loop_sends n' messages s'
      | _ => []
      end
  end.

Definition chat_sends (n : nat) (message : pyval) (history : loc) (s : state)
  : list (list pyval) :=
  let past := cell history s in
  let messages := length (heap s) in
  loop_sends n messages (alloc ([system_message] ++ past ++ [user_message message]) s).2.

(** A tool-role message that carries the id of the request. *)
Definition answers (request : tool_call) (result : pyval) : Prop :=
  exists content, result = tool_message content (id request).

End Script.

End ConnectionsChat.

(** ** profile-chatbot.py *)

Module ProfileChatbot.

Record world := {
  (** [page.extract_text()] for each page of me/linkedin.pdf *)
  pdf_pages : list string;
  (** the text of me/summary.txt *)
  summary_txt : string;
  (** [str()] of a list of messages *)
  py_repr : pyval -> string;
  (** [openai.chat.completions.create(model="gpt-4o-mini", messages=...)] *)
  completions_create : list event -> list pyval -> exn + response;
  (** [gemini.beta.chat.completions.parse(..., response_format=Evaluation)]
      followed by [.choices[0].message.parsed], which is [None] when the
      answer carries no parsed object *)
  completions_parse : list event -> list pyval -> exn + option Evaluation
}.

Section Script.

Context (W : world).

Definition linkedin : string := extract_all (pdf_pages W).
Definition summary : string := summary_txt W.
Definition name : string := "Anjani Prakash".

Definition system_prompt : string :=
  "You are acting as " +:+ name +:+ ". You are answering questions on " +:+ name +:+ "'s website, "
  +:+ "particularly questions related to " +:+ name +:+ "'s career, background, skills and experience. "
  +:+ "Your responsibility is to represent " +:+ name +:+ " for interactions on the website as faithfully as possible. "
  +:+ "You are given a summary of " +:+ name +:+ "'s background and LinkedIn profile which you can use to answer questions. "
  +:+ "Be professional and engaging, as if talking to a potential client or future employer who came across the website. "
  +:+ "If you don't know the answer, say so."
  +:+ nl +:+ nl +:+ "## Summary:" +:+ nl +:+ summary +:+ nl +:+ nl
  +:+ "## LinkedIn Profile:" +:+ nl +:+ linkedin +:+ nl +:+ nl
  +:+ "With this context, please chat with the user, always staying in character as " +:+ name +:+ ".".

Definition evaluator_system_prompt : string :=
  "You are an evaluator that decides whether a response to a question is acceptable. "
  +:+ "You are provided with a conversation between a User and an Agent. Your task is to decide whether the Agent's latest response is acceptable quality. "
  +:+ "The Agent is playing the role of " +:+ name +:+ " and is representing " +:+ name +:+ " on their website. "
  +:+ "The Agent has been instructed to be professional and engaging, as if talking to a potential client or future employer who came across the website. "
  +:+ "The Agent has been provided with context on " +:+ name +:+ " in the form of their summary and LinkedIn details. Here's the information:"
  +:+ nl +:+ nl +:+ "## Summary:" +:+ nl +:+ summary +:+ nl +:+ nl
  +:+ "## LinkedIn Profile:" +:+ nl +:+ linkedin +:+ nl +:+ nl
  +:+ "With this context, please evaluate the latest response, replying with whether the response is acceptable and your feedback.".

(** What an f-string prints for [reply], which is the completion's text or
    [None]. *)
Definition reply_str (reply : option string) : string :=
  match reply with
  | Some text => text
  | None => "None"
  end.

Definition reply_value (reply : option string) : pyval :=
  match reply with
  | Some text => PStr text
  | None => PNone
  end.

Definition evaluator_user_prompt (reply : option string) (message : string) (history : list pyval)
  : string :=
  "Here's the conversation between the User and the Agent: " +:+ nl +:+ nl
  +:+ py_repr W (PList history) +:+ nl +:+ nl
  +:+ "Here's the latest message from the User: " +:+ nl +:+ nl +:+ message +:+ nl +:+ nl
  +:+ "Here's the latest response from the Agent: " +:+ nl +:+ nl +:+ reply_str reply +:+ nl +:+ nl
  +:+ "Please evaluate the response, replying with whether it is acceptable and your feedback.".

Definition role_message (role content : string) : pyval :=
  PDict [("role", PStr role); ("content", PStr content)].

Definition evaluate (reply : option string) (message : string) (history : loc)
  : M (option Evaluation) :=
  do past <- read history;
  do messages <- alloc ([role_message "system" evaluator_system_prompt]
                        ++ [role_message "user" (evaluator_user_prompt reply message past)]);
  do sent <- read messages;
  do answer <- ask (fun t => completions_parse W t sent);
  emit (EvJudge sent);;
  lift answer.

Definition rejection_notice (reply : option string) (feedback : string) : string :=
  nl +:+ nl +:+ "## Previous answer rejected" +:+ nl
  +:+ "You just tried to reply, but the quality control rejected your reply" +:+ nl
  +:+ "## Your attempted answer:" +:+ nl +:+ reply_str reply +:+ nl +:+ nl
  +:+ "## Reason for rejection:" +:+ nl +:+ feedback +:+ nl +:+ nl.

Definition rerun (reply : option string) (message : string) (history : loc) (feedback : string)
  : M (option string) :=
  let updated_system_prompt := system_prompt +:+ rejection_notice reply feedback in
  do past <- read history;
  do messages <- alloc ([role_message "system" updated_system_prompt] ++ past
                        ++ [role_message "user" message]);
  do sent <- read messages;
  do answer <- ask (fun t => completions_create W t sent);
  emit (EvCompletion sent);;
  do response <- lift answer;
  ret (content (Py.message response)).

Definition pig_latin : string :=
  nl +:+ nl +:+ "Everything in your reply needs to be in pig latin - "
  +:+ "              it is mandatory that you respond only and entirely in pig latin".

Definition chat (message : string) (history : loc) : M (option string) :=
  let system :=
    if contains "patent" message then system_prompt +:+ pig_latin else system_prompt in
  do past <- read history;
  do messages <- alloc ([role_message "system" system] ++ past ++ [role_message "user" message]);
  do sent <- read messages;
  do answer <- ask (fun t => completions_create W t sent);
  emit (EvCompletion sent);;
  do response <- lift answer;
  let reply := content (Py.message response) in
  do evaluation <- evaluate reply message history;
  match evaluation with
  | None => raise AttributeError
  | Some evaluation =>
      if is_acceptable evaluation then
        emit (EvPrint "Passed evaluation - returning reply");;
        ret reply
      else
        emit (EvPrint "Failed evaluation - retrying");;
        emit (EvPrint (feedback evaluation));;
        rerun reply message history (feedback evaluation)
  end.

End Script.

End ProfileChatbot.

(** ** A concrete world for examples *)

Module Sample.

(** A JSON object of string members, as text. *)
Definition member (k v : string) : string := json_string k +:+ ": " +:+ json_string v.

Definition args_email : string := "{" +:+ member "email" "a@b.com" +:+ "}".
Definition args_message : string := "{" +:+ member "message" "hi" +:+ "}".
Definition args_question : string := "{" +:+ member "question" "favourite colour?" +:+ "}".
Definition args_empty : string := "{}".
Definition args_malformed : string := "{" +:+ dquote +:+ "email".

(** [json.loads] on the argument texts above, the only ones the examples
    use: the first four decode as shown, and [args_malformed], an object cut
    off after its first key, does not. *)
Definition json_loads (text : string) : option pyval :=
  if String.eqb text args_email then Some (PDict [("email", PStr "a@b.com")])
  else if String.eqb text args_message then Some (PDict [("message", PStr "hi")])
  else if String.eqb text args_question then Some (PDict [("question", PStr "favourite colour?")])
  else if String.eqb text args_empty then Some (PDict [])
  else None.

(** An endpoint that plays a script: its k-th answer is the k-th entry,
    and it is unreachable once the script is over. *)
Definition scripted (script : list (exn + response)) (t : list event) (_ : list pyval)
  : exn + response :=
  nth (length (model_calls t)) script (inl (APIError "connection")).

Definition interpreter_globals (k : string) : option ConnectionsChat.gobj :=
  if String.eqb k "__name__" then Some (ConnectionsChat.GData true)
  else if String.eqb k "__doc__" then Some (ConnectionsChat.GData true)
  else if String.eqb k "__builtins__" then Some (ConnectionsChat.GData true)
  else if String.eqb k "__spec__" then Some (ConnectionsChat.GData false)
  else None.

Definition getenv (k : string) : option string :=
  if String.eqb k "PUSHOVER_USER" then Some "u_key"
  else if String.eqb k "PUSHOVER_TOKEN" then Some "a_token"
  else None.

Definition career (script : list (exn + response)) (post : post_result) : ConnectionsChat.world :=
  {| ConnectionsChat.getenv := getenv;
     ConnectionsChat.pdf_pages := ["Engineer."];
     ConnectionsChat.summary_txt := "Builds things.";
     ConnectionsChat.interpreter_globals := interpreter_globals;
     ConnectionsChat.json_loads := json_loads;
     ConnectionsChat.py_repr := fun _ => "<object>";
     ConnectionsChat.completions_create := scripted script;
     ConnectionsChat.requests_post := fun _ _ => post;
     ConnectionsChat.report_print := fun _ _ => None;
     ConnectionsChat.imported_call := fun _ _ _ => inr (PObj "object") |}.

Definition profile (script : list (exn + response)) (judge : exn + option Evaluation)
  : ProfileChatbot.world :=
  {| ProfileChatbot.pdf_pages := ["Engineer."];
     ProfileChatbot.summary_txt := "Builds things.";
     ProfileChatbot.py_repr := fun _ => "<list>";
     ProfileChatbot.completions_create := scripted script;
     ProfileChatbot.completions_parse := fun _ _ => judge |}.

Definition text_answer (text : string) : response :=
  {| finish_reason := "stop"; message := {| content := Some text; tool_calls := None |} |}.

Definition tool_answer (calls : list tool_call) : response :=
  {| finish_reason := "tool_calls"; message := {| content := None; tool_calls := Some calls |} |}.

Definition request (i tool_name arguments : string) : tool_call :=
  {| id := i; function_name := tool_name; function_arguments := arguments |}.

(** The caller's store: one list object, the history, at address 0. *)
Definition start (history : list pyval) : state := {| heap := [history]; trace := [] |}.

Definition earlier : list pyval :=
  [ PDict [("role", PStr "user"); ("content", PStr "Hello")];
    PDict [("role", PStr "assistant"); ("content", PStr "Hi, how can I help?")] ].

(** The model asks for [record_user_details] with an email, then answers. *)
Definition records_email : ConnectionsChat.world :=
  career [ inr (tool_answer [request "call_1" "record_user_details" args_email]);
           inr (text_answer "Thanks!") ] Delivered.

(** The same, with the Pushover request failing. *)
Definition records_email_offline : ConnectionsChat.world :=
  career [ inr (tool_answer [request "call_1" "record_user_details" args_email]);
           inr (text_answer "Thanks!") ] RequestFailed.

(** The model asks for [record_user_details] without the email. *)
Definition omits_email : ConnectionsChat.world :=
  career [ inr (tool_answer [request "call_1" "record_user_details" args_empty]);
           inr (text_answer "Thanks!") ] Delivered.



(** [W] with a standard output that cannot encode the marks of the report
    lines of [push], as under an ASCII or cp1252 locale. *)
Definition on_plain_stdout (W : ConnectionsChat.world) : ConnectionsChat.world :=
  {| ConnectionsChat.getenv := ConnectionsChat.getenv W;
     ConnectionsChat.pdf_pages := ConnectionsChat.pdf_pages W;
     ConnectionsChat.summary_txt := ConnectionsChat.summary_txt W;
     ConnectionsChat.interpreter_globals := ConnectionsChat.interpreter_globals W;
     ConnectionsChat.json_loads := ConnectionsChat.json_loads W;
     ConnectionsChat.py_repr := ConnectionsChat.py_repr W;
     ConnectionsChat.completions_create := ConnectionsChat.completions_create W;
     ConnectionsChat.requests_post := ConnectionsChat.requests_post W;
     ConnectionsChat.report_print := fun _ _ => Some UnicodeEncodeError;
     ConnectionsChat.imported_call := ConnectionsChat.imported_call W |}.

(** The model answers at once. *)
Definition answers_at_once : ConnectionsChat.world :=
  career [ inr (text_answer "I am an engineer.") ] Delivered.

(** The judge rejects the first reply. *)
Definition judge_rejects : ProfileChatbot.world :=
  profile [ inr (text_answer "yo"); inr (text_answer "Good day.") ]
    (inr (Some {| is_acceptable := false; feedback := "too informal" |})).

(** The judge's answer does not parse. *)
Definition judge_unparsed : ProfileChatbot.world :=
  profile [ inr (text_answer "yo"); inr (text_answer "Good day.") ]
    (inl (APIError "validation")).

(** The store when the loop of [chat] starts on [message] with an empty
    history: the history at 0, the list of messages at 1. *)
Definition at_loop (W : ConnectionsChat.world) (message : string) : state :=
  (alloc ([ConnectionsChat.system_message W] ++ []
          ++ [ConnectionsChat.user_message (PStr message)]) (start [])).2.

(** What a computation returned, or the empty list. *)
Definition returned (out : outcome (list pyval) * state) : list pyval :=
  match out.1 with
  | Ret l => l
  | _ => []
  end.

End Sample.

(** ** What a computation leaves of the store and of the trace *)

(** [evolves mut s s']: going from [s] to [s'], no list object is lost,
    the objects outside [mut] are the same, every object has at most grown
    at its end, and the trace has only been added to. *)
Definition evolves (mut : loc -> Prop) (s s' : state) : Prop :=
  length (heap s) <= length (heap s')
  /\ (forall a, a < length (heap s) -> ~ mut a -> heap s' !! a = heap s !! a)
  /\ (forall a, a < length (heap s) -> cell a s `prefix_of` cell a s')
  /\ trace s `prefix_of` trace s'.

Definition nothing : loc -> Prop := fun _ => False.


(** The [tool_call_id]s of the tool-role messages of a sequence, in order. *)
Definition tool_result_ids (l : list pyval) : list string :=
  flat_map (fun v =>
    match v with
    | PDict [("role", PStr "tool"); ("content", PStr _); ("tool_call_id", PStr i)] => [i]
    | _ => []
    end) l.

(** [quiet c]: running [c] makes no call to the model endpoint. *)
Definition quiet {A} (c : M A) : Prop :=
  forall s, model_calls (trace (c s).2) = model_calls (trace s).

Section Frame.

Lemma evolves_refl mut s : evolves mut s s.
Proof. unfold evolves. naive_solver. Qed.

Lemma evolves_trans mut s1 s2 s3 :
  evolves mut s1 s2 -> evolves mut s2 s3 -> evolves mut s1 s3.
Proof.
  intros (Hl1 & Hk1 & Hp1 & Ht1) (Hl2 & Hk2 & Hp2 & Ht2).
  repeat split.
  - lia.
  - intros a Ha Hm. rewrite Hk2 by (lia || done). by apply Hk1.
  - intros a Ha. etrans; [by apply Hp1 | apply Hp2; lia].
  - by etrans.
Qed.

Lemma evolves_weaken (mut mut' : loc -> Prop) s s' :
  (forall a, mut a -> mut' a) -> evolves mut s s' -> evolves mut' s s'.
Proof. intros Hsub (Hl & Hk & Hp & Ht). repeat split; auto. Qed.

(** Objects made after [s] are not objects of [s]. *)
Lemma evolves_fresh (mut : loc -> Prop) s s' :
  (forall a, mut a -> length (heap s) <= a) -> evolves mut s s' -> evolves nothing s s'.
Proof.
  intros Hfresh (Hl & Hk & Hp & Ht). repeat split; auto.
  intros a Ha _. apply Hk; [done |]. intros Hm. apply Hfresh in Hm. lia.
Qed.

Lemma evolves_cell mut s s' a :
  evolves mut s s' -> a < length (heap s) -> ~ mut a -> cell a s' = cell a s.
Proof. intros (_ & Hk & _) Ha Hm. unfold cell. by rewrite Hk. Qed.

Lemma evolves_bind {A B} mut (m : M A) (k : A -> M B) s :
  evolves mut s (m s).2 ->
  (forall a s1, m s = (Ret a, s1) -> evolves mut s1 (k a s1).2) ->
  evolves mut s (bind m k s).2.
Proof.
  intros Hm Hk. unfold bind. destruct (m s) as [[a | e |] s1] eqn:E; simpl in *; [| done | done].
  eapply evolves_trans; [exact Hm | by apply Hk].
Qed.

Lemma evolves_ret {A} mut (a : A) s : evolves mut s (ret a s).2.
Proof. apply evolves_refl. Qed.

Lemma evolves_raise {A} mut e s : evolves mut s (@raise A e s).2.
Proof. apply evolves_refl. Qed.

Lemma evolves_lift {A} mut (r : exn + A) s : evolves mut s (lift r s).2.
Proof. destruct r; apply evolves_refl. Qed.

Lemma evolves_ask {A} mut (oracle : list event -> A) s : evolves mut s (ask oracle s).2.
Proof. apply evolves_refl. Qed.

Lemma evolves_read mut a s : evolves mut s (read a s).2.
Proof. apply evolves_refl. Qed.

Lemma evolves_emit mut e s : evolves mut s (emit e s).2.
Proof.
  repeat split; simpl; auto.
  by apply prefix_app_r.
Qed.

Lemma cell_alloc_old l s a : a < length (heap s) -> cell a (alloc l s).2 = cell a s.
Proof. intros Ha. unfold cell. simpl. by rewrite lookup_app_l. Qed.

Lemma cell_alloc_new l s : cell (length (heap s)) (alloc l s).2 = l.
Proof. unfold cell. simpl. by rewrite list_lookup_middle. Qed.

Lemma evolves_alloc mut l s : evolves mut s (alloc l s).2.
Proof.
  repeat split.
  - simpl. rewrite length_app. lia.
  - intros a Ha _. simpl. by rewrite lookup_app_l.
  - intros a Ha. by rewrite cell_alloc_old.
  - done.
Qed.

Lemma cell_extend_same a xs s :
  a < length (heap s) -> cell a (list_extend a xs s).2 = cell a s ++ xs.
Proof. intros Ha. unfold cell at 1. simpl. by rewrite list_lookup_insert_eq. Qed.

Lemma cell_extend_other a b xs s : a <> b -> cell b (list_extend a xs s).2 = cell b s.
Proof. intros Hne. unfold cell. simpl. by rewrite list_lookup_insert_ne. Qed.

Lemma evolves_extend a xs s : evolves (eq a) s (list_extend a xs s).2.
Proof.
  repeat split.
  - simpl. by rewrite length_insert.
  - intros b Hb Hne. simpl. apply list_lookup_insert_ne. congruence.
  - intros b Hb. destruct (decide (a = b)) as [<- | Hne].
    + rewrite cell_extend_same by done. by apply prefix_app_r.
    + by rewrite cell_extend_other.
  - done.
Qed.

(** One step of a computation at a time. *)

Lemma bind_assoc {A B C} (m : M A) (f : A -> M B) (g : B -> M C) s :
  bind (bind m f) g s = bind m (fun a => bind (f a) g) s.
Proof. unfold bind. by destruct (m s) as [[a | e |] s1]. Qed.

Lemma bind_ret {A B} (a : A) (k : A -> M B) s : bind (ret a) k s = k a s.
Proof. reflexivity. Qed.

Lemma bind_raise {A B} e (k : A -> M B) s : bind (raise e) k s = (Raise e, s).
Proof. reflexivity. Qed.

Lemma bind_lift_inr {A B} (a : A) (k : A -> M B) s : bind (lift (inr a)) k s = k a s.
Proof. reflexivity. Qed.

Lemma bind_lift_inl {A B} e (k : A -> M B) s : bind (lift (inl e)) k s = (Raise e, s).
Proof. reflexivity. Qed.

Lemma bind_read {B} a (k : list pyval -> M B) s : bind (read a) k s = k (cell a s) s.
Proof. reflexivity. Qed.

Lemma bind_ask {A B} (oracle : list event -> A) (k : A -> M B) s :
  bind (ask oracle) k s = k (oracle (trace s)) s.
Proof. reflexivity. Qed.

Lemma bind_emit {B} e (k : unit -> M B) s : bind (emit e) k s = k tt (emit e s).2.
Proof. reflexivity. Qed.

Lemma bind_alloc {B} l (k : loc -> M B) s :
  bind (alloc l) k s = k (length (heap s)) (alloc l s).2.
Proof. reflexivity. Qed.

Lemma trace_alloc l s : trace (alloc l s).2 = trace s.
Proof. reflexivity. Qed.

Lemma trace_emit e s : trace (emit e s).2 = trace s ++ [e].
Proof. reflexivity. Qed.

Lemma heap_emit e s : heap (emit e s).2 = heap s.
Proof. reflexivity. Qed.

Lemma cell_emit a e s : cell a (emit e s).2 = cell a s.
Proof. reflexivity. Qed.

End Frame.

(** Splits a goal [evolves _ s (c s).2] along the binds of [c]. *)
Ltac frame :=
  repeat match goal with
    | |- evolves _ _ (ret _ _).2 => apply evolves_ret
    | |- evolves _ _ (raise _ _).2 => apply evolves_raise
    | |- evolves _ _ (emit _ _).2 => apply evolves_emit
    | |- evolves _ _ (ask _ _).2 => apply evolves_ask
    | |- evolves _ _ (read _ _).2 => apply evolves_read
    | |- evolves _ _ (lift _ _).2 => apply evolves_lift
    | |- evolves _ _ (alloc _ _).2 => apply evolves_alloc
    | |- evolves _ _ (bind _ _ _).2 => apply evolves_bind; [| intros ? ? _]
    end.

(** Runs a computation forward through the steps that cannot fail. *)
Ltac run :=
  repeat (first [ rewrite bind_assoc | rewrite bind_read | rewrite bind_alloc
                | rewrite bind_ask | rewrite bind_emit | rewrite bind_ret
                | rewrite bind_lift_inr | rewrite bind_lift_inl ];
          cbv beta).

(** ** Computations that do not call the endpoint *)

Section Quiet.

Lemma model_calls_app t1 t2 : model_calls (t1 ++ t2) = model_calls t1 ++ model_calls t2.
Proof. apply flat_map_app. Qed.

Lemma quiet_ret {A} (a : A) : quiet (ret a).
Proof. done. Qed.

Lemma quiet_raise {A} e : quiet (@raise A e).
Proof. done. Qed.

Lemma quiet_ask {A} (oracle : list event -> A) : quiet (ask oracle).
Proof. done. Qed.

Lemma quiet_lift {A} (r : exn + A) : quiet (lift r).
Proof. by destruct r. Qed.

Lemma quiet_emit e : model_calls [e] = [] -> quiet (emit e).
Proof. intros He s. rewrite trace_emit, model_calls_app, He. apply app_nil_r. Qed.

Lemma quiet_bind {A B} (m : M A) (k : A -> M B) :
  quiet m -> (forall a, quiet (k a)) -> quiet (bind m k).
Proof.
  intros Hm Hk s. unfold bind. specialize (Hm s).
  destruct (m s) as [[a | e |] s1]; simpl in *; [| done | done].
  by rewrite Hk.
Qed.

Lemma quiet_try_except {A} (body : M A) (handler : exn -> M A) :
  quiet body -> (forall e, quiet (handler e)) -> quiet (try_except body handler).
Proof.
  intros Hb Hh s. unfold try_except. specialize (Hb s).
  destruct (body s) as [[a | e |] s1]; simpl in *; [done | | done].
  by rewrite Hh.
Qed.


End Quiet.

(** Splits a goal [quiet c] along the binds of [c]. *)
Ltac hush :=
  repeat match goal with
    | |- quiet (ret _) => apply quiet_ret
    | |- quiet (raise _) => apply quiet_raise
    | |- quiet (emit _) => apply quiet_emit; reflexivity
    | |- quiet (ask _) => apply quiet_ask
    | |- quiet (lift _) => apply quiet_lift
    | |- quiet (bind _ _) => apply quiet_bind; [| intros ?]
    | |- quiet (try_except _ _) => apply quiet_try_except; [| intros ?]
    end.

(** ** The career chatbot's driver *)

Section Driver.

Import ConnectionsChat.

Context (W : world).

(** Unfolds one monadic step in the goal. *)
Ltac step := unfold bind, ret, raise, emit, ask, read, lift; simpl.


Lemma bind_Ret {A B} (m : M A) (k : A -> M B) s b s' :
  bind m k s = (Ret b, s') -> exists a s1, m s = (Ret a, s1) /\ k a s1 = (Ret b, s').
Proof.
  unfold bind. destruct (m s) as [[a | e |] s1]; [eauto | discriminate | discriminate].
Qed.

(** What [push] returns, when it returns, is [None]. *)
Lemma push_result (message : pyval) s v s' : push W message s = (Ret v, s') -> v = PNone.
Proof.
  unfold push. intros H. apply bind_Ret in H as (u & s1 & _ & H).
  destruct (negb (str_truthy (pushover_user W)) || negb (str_truthy (pushover_token W)))%bool.
  - apply bind_Ret in H as (? & ? & _ & H). apply bind_Ret in H as (? & ? & _ & H).
    apply bind_Ret in H as (? & ? & _ & H). by injection H as <- _.
  - apply bind_Ret in H as (? & ? & _ & H). apply bind_Ret in H as (? & ? & _ & H).
    apply bind_Ret in H as (? & ? & _ & H). by injection H as <- _.
Qed.



(** After [push], only what is done with [None] matters. *)
Lemma bind_push_ext {B} (message : pyval) (k1 k2 : pyval -> M B) s :
  (forall s', k1 PNone s' = k2 PNone s') ->
  bind (push W message) k1 s = bind (push W message) k2 s.
Proof.
  intros Hk. unfold bind. destruct (push W message s) as [[v | e |] s'] eqn:E; [| done | done].
  apply push_result in E as ->. apply Hk.
Qed.

Lemma evolves_try_except {A} mut (body : M A) (handler : exn -> M A) s :
  evolves mut s (body s).2 ->
  (forall e s1, evolves mut s1 (handler e s1).2) ->
  evolves mut s (try_except body handler s).2.
Proof.
  intros Hb Hh. unfold try_except. destruct (body s) as [[a | e |] s1]; simpl in *; [done | | done].
  eapply evolves_trans; [exact Hb | apply Hh].
Qed.

Lemma evolves_report mut line s : evolves mut s (report W line s).2.
Proof.
  unfold report. frame.
  match goal with |- evolves _ _ (match ?x with _ => _ end _).2 => destruct x end; frame.
Qed.

Lemma evolves_push (message : pyval) s : evolves nothing s (push W message s).2.
Proof.
  unfold push.
  destruct (negb (str_truthy (pushover_user W)) || negb (str_truthy (pushover_token W)))%bool;
    frame.
  match goal with |- evolves _ _ (match ?r with _ => _ end _).2 => destruct r end;
    repeat first [apply evolves_try_except; [| intros ? ?] | apply evolves_report].
Qed.



Section Dispatch.

(** The nested [chat] leaves the caller's list objects alone. *)
Context (chat_rec : pyval -> pyval -> M pyval).
Hypothesis chat_rec_frame : forall message history s, evolves nothing s (chat_rec message history s).2.

Lemma evolves_call g arguments s : evolves nothing s (call W chat_rec g arguments s).2.
Proof.
  unfold call.
  destruct arguments; try apply evolves_raise.
  destruct g as [[] | callee | b]; try apply evolves_raise.
  - destruct (accepts _ _ _); [apply evolves_push | apply evolves_raise].
  - destruct (accepts _ _ _); [| apply evolves_raise].
    unfold record_user_details. frame. apply evolves_push.
  - destruct (accepts _ _ _); [| apply evolves_raise].
    unfold record_unknown_question. frame. apply evolves_push.
  - destruct (accepts _ _ _); [| apply evolves_raise].
    unfold handle_tool_calls_on_value.
    destruct (arg _ _ _) as [| | | | [] | [] | [] | |]; frame.
  - destruct (accepts _ _ _); [apply chat_rec_frame | apply evolves_raise].
  - frame.
Qed.

Lemma evolves_handle_each tcs results s :
  evolves nothing s (handle_each W chat_rec tcs results s).2.
Proof.
  revert results s. induction tcs as [| tc rest IH]; intros results s; cbn [handle_each].
  - frame.
  - apply evolves_bind; [destruct (json_loads W _); frame | intros arguments s1 _].
    apply evolves_bind; [frame | intros _ s2 _].
    apply evolves_bind; [| intros result s3 _].
    { destruct (globals_get W _) as [g |]; [| frame].
      destruct (truthy g); [apply evolves_call | frame]. }
    apply evolves_bind; [destruct (json_dumps result); frame | intros text s4 _].
    apply IH.
Qed.

Lemma evolves_handle_tool_calls tcs s :
  evolves nothing s (handle_tool_calls W chat_rec tcs s).2.
Proof. destruct tcs; [apply evolves_handle_each | apply evolves_raise]. Qed.

End Dispatch.

Lemma evolves_after_alloc (mut : loc -> Prop) s s2 s3 :
  evolves nothing s s2 -> evolves mut s2 s3 ->
  (forall a, mut a -> length (heap s) <= a) -> evolves nothing s s3.
Proof.
  intros H1 H2 Hfresh.
  apply (evolves_fresh (fun a => length (heap s) <= a)); [done |].
  eapply evolves_trans.
  - eapply evolves_weaken; [| exact H1]. intros a [].
  - eapply evolves_weaken; [| exact H2]. done.
Qed.

Lemma chat_on_values_frame (loop : loc -> M (option string)) :
  (forall m s, evolves (eq m) s (loop m s).2) ->
  forall message history s, evolves nothing s (chat_on_values W loop message history s).2.
Proof.
  intros Hloop message history s.
  destruct history; try apply evolves_raise.
  unfold chat_on_values, chat_with, bind, read. simpl.
  set (s2 := {| heap := (heap s ++ [l]) ++ _; trace := trace s |}).
  assert (evolves nothing s s2) as Hs2.
  { eapply evolves_trans; [apply (evolves_alloc nothing l s) |].
    apply (evolves_alloc nothing _ (alloc l s).2). }
  pose proof (Hloop (length (heap s ++ [l])) s2) as H3.
  destruct (loop _ s2) as [[reply | e |] s3]; simpl in *;
    (eapply evolves_after_alloc; [exact Hs2 | exact H3 |]);
    intros a <-; rewrite length_app; lia.
Qed.

Lemma evolves_after_answer chat_rec m answer s :
  (forall message history s, evolves nothing s (chat_rec message history s).2) ->
  evolves (eq m) s (after_answer W chat_rec m answer s).2.
Proof.
  intros Hrec. unfold after_answer. frame.
  destruct (String.eqb _ _); frame.
  - eapply evolves_weaken; [| by apply evolves_handle_tool_calls]. intros ? [].
  - apply evolves_extend.
  - apply evolves_extend.
Qed.

Lemma iteration_unfold chat_rec m s :
  iteration W chat_rec m s
  = after_answer W chat_rec m (completions_create W (trace s) (cell m s))
      (emit (EvCompletion (cell m s)) s).2.
Proof. reflexivity. Qed.

Lemma evolves_iteration chat_rec m s :
  (forall message history s, evolves nothing s (chat_rec message history s).2) ->
  evolves (eq m) s (iteration W chat_rec m s).2.
Proof.
  intros Hrec. rewrite iteration_unfold.
  eapply evolves_trans; [apply evolves_emit | by apply evolves_after_answer].
Qed.

Lemma evolves_chat_loop n : forall m s, evolves (eq m) s (chat_loop W n m s).2.
Proof.
  induction n as [| n IH]; intros m s; cbn [chat_loop].
  - apply evolves_refl.
  - apply evolves_bind.
    + apply evolves_iteration. by apply chat_on_values_frame.
    + intros [done response] s1 _. destruct done; [apply evolves_ret | apply IH].
Qed.

Lemma nested_chat_frame n message history s :
  evolves nothing s (nested_chat W n message history s).2.
Proof. apply chat_on_values_frame, evolves_chat_loop. Qed.


(** *** A turn without tool calls *)

Lemma iteration_final chat_rec m s r :
  completions_create W (trace s) (cell m s) = inr r ->
  finish_reason r <> "tool_calls" ->
  iteration W chat_rec m s = (Ret (true, r), (emit (EvCompletion (cell m s)) s).2).
Proof.
  intros Hr Hfin. unfold iteration. step. rewrite Hr. simpl.
  apply String.eqb_neq in Hfin. by rewrite Hfin.
Qed.

(** C4.  When the first answer of the model has a finish reason other than
    "tool_calls", [chat] returns the text of that answer as it is, and the
    only thing it has done is the one call to the endpoint, with the system
    message, the history and the new user message. *)
Theorem chat_without_tool_calls n (message : pyval) (history : loc) s r :
  let sent := [system_message W] ++ cell history s ++ [user_message message] in
  completions_create W (trace s) sent = inr r ->
  finish_reason r <> "tool_calls" ->
  exists s',
    chat W (S n) message history s = (Ret (content (Py.message r)), s')
    /\ trace s' = trace s ++ [EvCompletion sent]
    /\ model_calls (trace s') = model_calls (trace s) ++ [sent].
Proof.
  intros sent Hr Hfin.
  unfold chat, chat_with. unfold bind at 1 2. cbn [read].
  fold sent. set (s1 := (alloc sent s).2).
  assert (cell (length (heap s)) s1 = sent) as Hcell by apply cell_alloc_new.
  change (alloc sent s) with (Ret (length (heap s)), s1).
  cbn [chat_loop]. unfold bind at 1.
  rewrite (iteration_final _ _ s1 r); rewrite ?Hcell; [| done | done].
  eexists. split; [reflexivity |]. split; [done |].
  cbn [emit snd trace]. unfold model_calls. by rewrite flat_map_app.
Qed.

(** *** A pass with tool calls *)

Lemma chat_loop_unfold n m s :
  chat_loop W (S n) m s
  = bind (after_answer W (nested_chat W n) m (completions_create W (trace s) (cell m s)))
      (fun '(done, response) =>
         if (done : bool) then ret (content (Py.message response)) else chat_loop W n m)
      (emit (EvCompletion (cell m s)) s).2.
Proof. reflexivity. Qed.

(** Each pass starts with the call to the endpoint, on the list as it is. *)
Lemma chat_loop_first_call n m s :
  exists rest, trace (chat_loop W (S n) m s).2 = trace s ++ EvCompletion (cell m s) :: rest.
Proof.
  rewrite chat_loop_unfold.
  set (s1 := (emit (EvCompletion (cell m s)) s).2).
  assert (evolves (eq m) s1
    (bind (after_answer W (nested_chat W n) m (completions_create W (trace s) (cell m s)))
       (fun '(done, response) =>
          if (done : bool) then ret (content (Py.message response)) else chat_loop W n m) s1).2)
    as (_ & _ & _ & [rest Hrest]).
  { apply evolves_bind.
    - apply evolves_after_answer, nested_chat_frame.
    - intros [done response] s2 _. destruct done; [apply evolves_ret | apply evolves_chat_loop]. }
  exists rest. rewrite Hrest. subst s1. cbn [emit snd trace]. by rewrite <- app_assoc.
Qed.

Lemma handle_each_answers chat_rec tcs : forall acc s results s',
  handle_each W chat_rec tcs acc s = (Ret results, s') ->
  exists new, results = acc ++ new /\ Forall2 (answers) tcs new.
Proof.
  induction tcs as [| tc rest IH]; intros acc s results s' H; cbn [handle_each] in H.
  - injection H as <- <-. exists []. by rewrite app_nil_r.
  - apply bind_Ret in H as (arguments & s1 & _ & H).
    apply bind_Ret in H as (_ & s2 & _ & H).
    apply bind_Ret in H as (result & s3 & _ & H).
    apply bind_Ret in H as (text & s4 & _ & H).
    apply IH in H as (new & -> & Hnew).
    exists (tool_message text (id tc) :: new). split.
    + by rewrite <- app_assoc.
    + constructor; [by exists text | done].
Qed.

Lemma answers_ids tcs results :
  Forall2 answers tcs results ->
  tool_result_ids results = map id tcs /\ length results = length tcs.
Proof.
  induction 1 as [| tc res tcs results [text ->] _ [IH1 IH2]]; [done |].
  split.
  - change (tool_result_ids (tool_message text (id tc) :: results))
      with (id tc :: tool_result_ids results).
    by rewrite IH1.
  - simpl. by rewrite IH2.
Qed.

Lemma after_answer_tool_calls chat_rec m s1 r :
  (forall message history s, evolves nothing s (chat_rec message history s).2) ->
  m < length (heap s1) ->
  finish_reason r = "tool_calls" ->
  match handle_tool_calls W chat_rec (tool_calls (Py.message r)) s1 with
  | (Ret results, s2) =>
      exists s3, after_answer W chat_rec m (inr r) s1 = (Ret (false, r), s3)
        /\ cell m s3 = cell m s1 ++ [PMessage (Py.message r)] ++ results
        /\ trace s3 = trace s2
  | (Raise e, s2) => after_answer W chat_rec m (inr r) s1 = (Raise e, s2) /\ cell m s2 = cell m s1
  | (OutOfFuel, s2) => after_answer W chat_rec m (inr r) s1 = (OutOfFuel, s2) /\ cell m s2 = cell m s1
  end.
Proof.
  intros Hrec Hm Hfin.
  pose proof (evolves_handle_tool_calls chat_rec Hrec (tool_calls (Py.message r)) s1) as Hev.
  assert (after_answer W chat_rec m (inr r) s1
          = bind (handle_tool_calls W chat_rec (tool_calls (Py.message r)))
              (fun results =>
                 list_append m (PMessage (Py.message r));;
                 list_extend m results;;
                 ret (false, r)) s1) as Heq.
  { unfold after_answer. cbn [lift]. unfold bind at 1. cbn [ret]. by rewrite Hfin. }
  rewrite Heq. unfold bind at 1 4 7.
  destruct (handle_tool_calls W chat_rec _ s1) as [[results | e |] s2]; simpl in Hev.
  - assert (cell m s2 = cell m s1) as Hcell
      by (eapply evolves_cell; [exact Hev | done | by intros []]).
    destruct Hev as (Hlen & _).
    exists (list_extend m results (list_append m (PMessage (Py.message r)) s2).2).2.
    split; [reflexivity |]. split; [| reflexivity].
    rewrite cell_extend_same by (cbn; rewrite length_insert; lia).
    unfold list_append. rewrite cell_extend_same by lia.
    by rewrite <- app_assoc, Hcell.
  - split; [reflexivity |]. eapply evolves_cell; [exact Hev | done | by intros []].
  - split; [reflexivity |]. eapply evolves_cell; [exact Hev | done | by intros []].
Qed.

(** *** What the dispatch sends to the endpoint *)

Lemma quiet_report line : quiet (report W line).
Proof.
  unfold report. hush.
  match goal with |- quiet (match ?x with _ => _ end) => destruct x end; hush.
Qed.

Lemma quiet_push (message : pyval) : quiet (push W message).
Proof.
  unfold push.
  destruct (negb (str_truthy (pushover_user W)) || negb (str_truthy (pushover_token W)))%bool;
    hush.
  match goal with |- quiet (match ?x with _ => _ end) => destruct x end;
    hush; apply quiet_report.
Qed.

(** Only [chat] calls the endpoint. *)
Lemma quiet_call chat_rec g arguments :
  g <> GFun Fchat -> quiet (call W chat_rec g arguments).
Proof.
  intros Hg. unfold call.
  destruct arguments; try apply quiet_raise.
  destruct g as [[] | callee | b]; try apply quiet_raise.
  - destruct (accepts _ _ _); [apply quiet_push | apply quiet_raise].
  - destruct (accepts _ _ _); [| apply quiet_raise].
    unfold record_user_details. hush. apply quiet_push.
  - destruct (accepts _ _ _); [| apply quiet_raise].
    unfold record_unknown_question. hush. apply quiet_push.
  - destruct (accepts _ _ _); [| apply quiet_raise].
    unfold handle_tool_calls_on_value.
    destruct (arg _ _ _) as [| | | | [] | [] | [] | |]; hush.
  - done.
  - hush.
Qed.

Lemma quiet_handle_each chat_rec tcs :
  Forall (fun tc => globals_get W (function_name tc) <> Some (GFun Fchat)) tcs ->
  forall results, quiet (handle_each W chat_rec tcs results).
Proof.
  induction 1 as [| tc rest Htc _ IH]; intros results; cbn [handle_each]; [hush |].
  apply quiet_bind; [destruct (json_loads W _); hush | intros arguments].
  apply quiet_bind; [hush | intros _].
  apply quiet_bind; [| intros result].
  { destruct (globals_get W _) as [g |]; [| hush].
    destruct (truthy g); [| hush]. apply quiet_call. congruence. }
  apply quiet_bind; [destruct (json_dumps result); hush | intros text].
  apply IH.
Qed.

(** C1, as the code has it.  Take a pass of the loop in which the endpoint
    answers with finish reason "tool_calls" and a list of requests.  If the
    dispatch of the requests returns, its results are tool-role messages, one
    per request, in the order of the requests, each with the id of its
    request; the list of messages becomes what it was, then the assistant
    message, then these results; nothing happens between the return of the
    dispatch and the next pass, and the next pass sends exactly this list.
    If the dispatch raises, the exception leaves the loop, and the list of
    messages is what it was.  When no request of the round is bound to
    [chat], the dispatch itself makes no call to the endpoint: the calls made
    so far are those made before the pass and the one of the pass. *)
Theorem tool_results_follow_requests n m s r tcs :
  m < length (heap s) ->
  completions_create W (trace s) (cell m s) = inr r ->
  finish_reason r = "tool_calls" ->
  tool_calls (Py.message r) = Some tcs ->
  let s1 := (emit (EvCompletion (cell m s)) s).2 in
  (forall results s2,
      handle_tool_calls W (nested_chat W n) (Some tcs) s1 = (Ret results, s2) ->
      Forall2 answers tcs results
      /\ tool_result_ids results = map id tcs
      /\ exists s3,
           chat_loop W (S n) m s = chat_loop W n m s3
           /\ cell m s3 = cell m s ++ [PMessage (Py.message r)] ++ results
           /\ trace s3 = trace s2
           /\ forall k, exists rest,
                trace (chat_loop W (S k) m s3).2 = trace s3 ++ EvCompletion (cell m s3) :: rest)
  /\ (forall e s2,
        handle_tool_calls W (nested_chat W n) (Some tcs) s1 = (Raise e, s2) ->
        chat_loop W (S n) m s = (Raise e, s2) /\ cell m s2 = cell m s)
  /\ (Forall (fun tc => globals_get W (function_name tc) <> Some (GFun Fchat)) tcs ->
      model_calls (trace (handle_tool_calls W (nested_chat W n) (Some tcs) s1).2)
      = model_calls (trace s) ++ [cell m s]).
Proof.
  intros Hm Hr Hfin Htcs s1.
  pose proof (after_answer_tool_calls (nested_chat W n) m s1 r (nested_chat_frame n) Hm Hfin)
    as Hpass.
  rewrite Htcs in Hpass.
  assert (cell m s1 = cell m s) as Hs1 by reflexivity.
  split; [| split].
  - intros results s2 Hh. rewrite Hh in Hpass. destruct Hpass as (s3 & Hs3 & Hcell & Htrace).
    pose proof (handle_each_answers _ _ _ _ _ _ Hh) as (new & -> & Hnew).
    split; [exact Hnew |]. split; [by apply answers_ids |].
    exists s3. split; [| split; [by rewrite Hcell, Hs1 | split; [done |]]].
    + rewrite chat_loop_unfold, Hr. fold s1. unfold bind at 1. by rewrite Hs3.
    + intros k. apply chat_loop_first_call.
  - intros e s2 Hh. rewrite Hh in Hpass. destruct Hpass as [Hs3 Hcell].
    split; [| by rewrite Hcell].
    rewrite chat_loop_unfold, Hr. fold s1. unfold bind at 1. by rewrite Hs3.
  - intros Hquiet. cbn [handle_tool_calls]. rewrite (quiet_handle_each _ _ Hquiet).
    subst s1. by rewrite trace_emit, model_calls_app.
Qed.

(** *** Names that are not bound, and names that are *)



(** C8.  A request named "push" whose arguments decode to a dict with the
    one key "message" names none of the advertised tools, and yet [push]
    runs on the value the model supplied; the request is answered with what
    [push] returns, "null", not with the empty result. *)
Theorem push_is_reachable_by_name chat_rec tc rest results s v :
  function_name tc = "push" ->
  json_loads W (function_arguments tc) = Some (PDict [("message", v)]) ->
  advertised (function_name tc) = false
  /\ globals_get W (function_name tc) = Some (GFun Fpush)
  /\ handle_each W chat_rec (tc :: rest) results s
     = (emit (EvPrint "Tool called: push");;
        push W v;;
        handle_each W chat_rec rest (results ++ [tool_message "null" (id tc)])) s.
Proof.
  intros Hname Hv. rewrite Hname. split; [reflexivity |]. split; [reflexivity |].
  cbn [handle_each]. rewrite Hv, Hname.
  set (s1 := (emit (EvPrint "Tool called: push") s).2).
  transitivity
    (bind (push W v)
       (fun result =>
          do content <- match json_dumps result with
                        | Some text => ret text
                        | None => raise TypeError
                        end;
          handle_each W chat_rec rest (results ++ [tool_message content (id tc)])) s1);
    [reflexivity |].
  transitivity
    (bind (push W v)
       (fun _ => handle_each W chat_rec rest (results ++ [tool_message "null" (id tc)])) s1);
    [| reflexivity].
  apply bind_push_ext. reflexivity.
Qed.

(** *** What is caught and what is not *)





(** *** The list of messages only grows *)



(** The sequences of [loop_sends] are calls the loop has made, in order. *)
Lemma loop_sends_are_calls n : forall m s,
  exists calls,
    model_calls (trace (chat_loop W n m s).2) = model_calls (trace s) ++ calls
    /\ loop_sends W n m s `sublist_of` calls.
Proof.
  induction n as [| n IH]; intros m s.
  - exists []. by rewrite app_nil_r.
  - cbn [chat_loop loop_sends]. unfold bind at 1. fold (nested_chat W n).
    rewrite iteration_unfold.
    set (s1 := (emit (EvCompletion (cell m s)) s).2) in *.
    assert (evolves (eq m) s1
      (after_answer W (nested_chat W n) m (completions_create W (trace s) (cell m s)) s1).2)
      as (_ & _ & _ & [t Ht]) by apply evolves_after_answer, nested_chat_frame.
    destruct (after_answer W _ _ _ s1) as [[[done r] | e |] s'] eqn:E; simpl in Ht.
    + destruct done.
      * exists (cell m s :: model_calls t). cbn [ret snd]. rewrite Ht. subst s1.
        cbn [emit snd trace]. rewrite !model_calls_app. cbn. rewrite <- app_assoc.
        split; [done |]. apply sublist_skip, sublist_nil_l.
      * destruct (IH m s') as (calls & Hcalls & Hsub).
        exists (cell m s :: model_calls t ++ calls). rewrite Hcalls, Ht. subst s1.
        cbn [emit snd trace]. rewrite !model_calls_app. cbn. rewrite <- !app_assoc.
        split; [done |]. apply sublist_skip. by apply sublist_inserts_l.
    + exists (cell m s :: model_calls t). cbn [snd]. rewrite Ht. subst s1.
      cbn [emit snd trace]. rewrite !model_calls_app. cbn. rewrite <- app_assoc.
      split; [done |]. apply sublist_skip, sublist_nil_l.
    + exists (cell m s :: model_calls t). cbn [snd]. rewrite Ht. subst s1.
      cbn [emit snd trace]. rewrite !model_calls_app. cbn. rewrite <- app_assoc.
      split; [done |]. apply sublist_skip, sublist_nil_l.
Qed.



Lemma chat_sends_are_calls n message history s :
  exists calls,
    model_calls (trace (chat W n message history s).2) = model_calls (trace s) ++ calls
    /\ chat_sends W n message history s `sublist_of` calls.
Proof.
  unfold chat, chat_with, chat_sends, bind, read. cbn [fst snd].
  destruct (loop_sends_are_calls n (length (heap s))
    (alloc ([system_message W] ++ cell history s ++ [user_message message]) s).2)
    as (calls & Hcalls & Hsub).
  exists calls. split; [exact Hcalls | exact Hsub].
Qed.

(** *** Turns in which [chat] is not asked for by name *)

Section NoNestedChat.

Hypothesis never_chat : forall t sent r tcs,
  completions_create W t sent = inr r ->
  tool_calls (Py.message r) = Some tcs ->
  Forall (fun tc => globals_get W (function_name tc) <> Some (GFun Fchat)) tcs.





End NoNestedChat.


End Driver.

(** ** The profile chatbot's gate *)

Section Gate.

Import ProfileChatbot.

Context (W : world).

(** *** Substrings *)

Lemma append_cons c a b : String c a +:+ b = String c (a +:+ b).
Proof. reflexivity. Qed.

Lemma append_nil_r s : s +:+ "" = s.
Proof. induction s as [| c s IH]; [done |]. rewrite append_cons. by rewrite IH. Qed.

Lemma append_assoc a b c : (a +:+ b) +:+ c = a +:+ (b +:+ c).
Proof. induction a as [| x a IH]; [done |]. rewrite !append_cons. by rewrite IH. Qed.

Lemma prefix_spec needle : forall s,
  String.prefix needle s = true <-> exists post, s = needle +:+ post.
Proof.
  induction needle as [| c needle IH]; intros s.
  - split; [intros _; by exists s | intros _; by destruct s].
  - destruct s as [| d s]; cbn [String.prefix].
    + split; [done | intros [post H]; discriminate].
    + destruct (ascii_dec c d) as [-> | Hne].
      * rewrite IH. split; intros [post H]; exists post; rewrite append_cons in *; congruence.
      * split; [done | intros [post H]]. rewrite append_cons in H. congruence.
Qed.

(** [contains] is the substring test. *)
Lemma contains_spec needle : forall s,
  contains needle s = true <-> exists pre post, s = pre +:+ needle +:+ post.
Proof.
  induction s as [| c s IH]; cbn [contains].
  - destruct (String.prefix needle "") eqn:E.
    + split; [intros _ | done]. apply prefix_spec in E as [post H]. by exists "", post.
    + split; [done |]. intros ([| ? ?] & post & H); [| discriminate].
      assert (String.prefix needle "" = true) by (apply prefix_spec; by exists post).
      congruence.
  - destruct (String.prefix needle (String c s)) eqn:E.
    + split; [intros _ | done]. apply prefix_spec in E as [post H]. by exists "", post.
    + rewrite IH. split.
      * intros (pre & post & ->). by exists (String c pre), post.
      * intros ([| d pre] & post & H).
        -- assert (String.prefix needle (String c s) = true)
             by (apply prefix_spec; by exists post).
           congruence.
        -- exists pre, post. rewrite append_cons in H. congruence.
Qed.

(** *** The gate never writes to a list *)

Lemma evolves_evaluate reply message history s :
  evolves nothing s (evaluate W reply message history s).2.
Proof. unfold evaluate. frame. Qed.

Lemma evolves_rerun reply message history fb s :
  evolves nothing s (rerun W reply message history fb s).2.
Proof. unfold rerun. cbv zeta. frame. Qed.



(** *** The generation request *)

Lemma append_self_nil (a b : string) : a +:+ b = a -> b = "".
Proof.
  induction a as [| c a IH]; [done |]. rewrite append_cons. intros H. apply IH. congruence.
Qed.

(** C10.  The first thing [chat] does is the generation request: the
    system message, the history, the user message.  When "patent" occurs in
    the user's message, the content of that system message is the base system
    prompt followed by the pig-latin instruction, in the words of the script,
    which is not the base system prompt; when it does not occur, the content
    is the base system prompt alone. *)
Theorem patent_selects_system_prompt (message : string) (history : loc) s :
  exists system rest,
    trace (chat W message history s).2
    = trace s ++ EvCompletion ([PDict [("role", PStr "system"); ("content", PStr system)]]
                               ++ cell history s
                               ++ [PDict [("role", PStr "user"); ("content", PStr message)]])
                 :: rest
    /\ ((exists pre post, message = pre +:+ "patent" +:+ post) ->
        system = system_prompt W +:+ nl +:+ nl
                 +:+ "Everything in your reply needs to be in pig latin - "
                 +:+ "              it is mandatory that you respond only and entirely in pig latin"
        /\ system <> system_prompt W)
    /\ (~ (exists pre post, message = pre +:+ "patent" +:+ post) ->
        system = system_prompt W).
Proof.
  exists (if contains "patent" message then system_prompt W +:+ pig_latin else system_prompt W).
  unfold chat. cbv zeta. run. rewrite cell_alloc_new.
  match goal with
  | |- context [bind ?m ?k ?s1] =>
      assert (evolves nothing s1 (bind m k s1).2) as (_ & _ & _ & [rest Hrest])
  end.
  { frame.
    - apply evolves_evaluate.
    - match goal with |- evolves _ _ (match ?x with _ => _ end _).2 => destruct x as [ev |] end;
        [| frame].
      destruct (is_acceptable ev); frame. apply evolves_rerun. }
  exists rest. split; [| split].
  - rewrite Hrest, trace_emit, trace_alloc. by rewrite <- app_assoc.
  - intros Hin. apply contains_spec in Hin. rewrite Hin. split; [reflexivity |].
    intros Heq. apply append_self_nil in Heq. discriminate Heq.
  - intros Hout. destruct (contains "patent" message) eqn:E; [| done].
    apply contains_spec in E. contradiction.
Qed.

(** *** The judge and the retry *)

(** [chat] up to the judge's answer: the generation request has been
    answered with [r], and what is left depends on the judge alone. *)
Lemma chat_until_judge (message : string) (history : loc) s r :
  history < length (heap s) ->
  let past := cell history s in
  let system :=
    if contains "patent" message then system_prompt W +:+ pig_latin else system_prompt W in
  let sent := [role_message "system" system] ++ past ++ [role_message "user" message] in
  let reply := content (Py.message r) in
  let judged := [role_message "system" (evaluator_system_prompt W)]
                ++ [role_message "user" (evaluator_user_prompt W reply message past)] in
  completions_create W (trace s) sent = inr r ->
  exists s4,
    trace s4 = trace s ++ [EvCompletion sent; EvJudge judged]
    /\ cell history s4 = past
    /\ chat W message history s
       = bind (lift (completions_parse W (trace s ++ [EvCompletion sent]) judged))
           (fun evaluation =>
              match evaluation with
              | None => raise AttributeError
              | Some evaluation =>
                  if is_acceptable evaluation then
                    emit (EvPrint "Passed evaluation - returning reply");;
                    ret reply
                  else
                    emit (EvPrint "Failed evaluation - retrying");;
                    emit (EvPrint (feedback evaluation));;
                    rerun W reply message history (feedback evaluation)
              end) s4.
Proof.
  intros Hh past system sent reply judged Hr.
  unfold chat. cbv zeta. fold system. run. fold past. fold sent.
  rewrite cell_alloc_new, trace_alloc, Hr. run. fold reply.
  unfold evaluate. run.
  rewrite cell_emit, cell_alloc_old by done. fold past. fold judged.
  rewrite cell_alloc_new, trace_alloc, trace_emit, trace_alloc.
  eexists. split; [| split; [| reflexivity]].
  - rewrite trace_emit, trace_alloc, trace_emit, trace_alloc. by rewrite <- app_assoc.
  - rewrite cell_emit, cell_alloc_old, cell_emit, cell_alloc_old; [done | done |].
    rewrite heap_emit. simpl. rewrite length_app. lia.
Qed.

(** C5.  When the generation request has been answered and the judge call
    does not yield an [Evaluation] (the parse raises, or the answer carries
    no parsed object), [chat] ends with an exception: that of the parse, or
    the [AttributeError] of reading [is_acceptable] off [None].  Nothing has
    been sent after the judge call: no reply is returned and no regeneration
    is asked for. *)
Theorem judge_failure_is_an_error (message : string) (history : loc) s r :
  history < length (heap s) ->
  let past := cell history s in
  let system :=
    if contains "patent" message then system_prompt W +:+ pig_latin else system_prompt W in
  let sent := [role_message "system" system] ++ past ++ [role_message "user" message] in
  let judged := [role_message "system" (evaluator_system_prompt W)]
                ++ [role_message "user"
                      (evaluator_user_prompt W (content (Py.message r)) message past)] in
  completions_create W (trace s) sent = inr r ->
  (forall e,
      completions_parse W (trace s ++ [EvCompletion sent]) judged = inl e ->
      exists s', chat W message history s = (Raise e, s')
                 /\ trace s' = trace s ++ [EvCompletion sent; EvJudge judged])
  /\ (completions_parse W (trace s ++ [EvCompletion sent]) judged = inr None ->
      exists s', chat W message history s = (Raise AttributeError, s')
                 /\ trace s' = trace s ++ [EvCompletion sent; EvJudge judged]).
Proof.
  intros Hh past system sent judged Hr.
  destruct (chat_until_judge message history s r Hh Hr) as (s4 & Ht & _ & ->).
  fold past system sent judged. split.
  - intros e ->. exists s4. by rewrite bind_lift_inl.
  - intros ->. exists s4. by rewrite bind_lift_inr.
Qed.


End Gate.

(** ** The caller's lists, in both scripts *)


(** ** The theorems at work *)

Section Examples.

Import Sample.

Example json_dumps_nested :
  json_dumps (PDict [("a", PList [PInt 1; PNone; PBool true]); ("b", PStr "x")])
  = Some ("{" +:+ json_string "a" +:+ ": [1, null, true], " +:+ json_string "b" +:+ ": "
          +:+ json_string "x" +:+ "}").
Proof. reflexivity. Qed.

Example contains_patent :
  contains "patent" "Do you hold a patent?" = true /\ contains "patent" "Pat, enter" = false.
Proof. split; reflexivity. Qed.

(** The scenario of the specification: one request for
    [record_user_details] with an email, then "Thanks!". *)
Example records_email_then_thanks :
  (ConnectionsChat.chat records_email 5 (PStr "What is your email?") 0 (start [])).1
  = Ret (Some "Thanks!").
Proof. vm_compute. reflexivity. Qed.

(** With the Pushover request failing, the model is told the same. *)
Example offline_result_is_the_same :
  returned (ConnectionsChat.handle_tool_calls records_email_offline
              (ConnectionsChat.nested_chat records_email_offline 1)
              (Some [request "call_1" "record_user_details" args_email]) (start []))
  = [ConnectionsChat.tool_message
       ("{" +:+ json_string "recorded" +:+ ": " +:+ json_string "ok" +:+ "}") "call_1"].
Proof. vm_compute. reflexivity. Qed.

(** C4 at work: the model answers at once. *)
Lemma chat_without_tool_calls_at_once :
  exists s',
    ConnectionsChat.chat answers_at_once 1 (PStr "Who are you?") 0 (start earlier)
    = (Ret (Some "I am an engineer."), s').
Proof.
  destruct (chat_without_tool_calls answers_at_once 0 (PStr "Who are you?") 0 (start earlier)
              (text_answer "I am an engineer.")) as (s' & H & _).
  - vm_compute. reflexivity.
  - discriminate.
  - exists s'. exact H.
Defined.

(** C1 at work: the email is recorded, and the next pass sends the
    request and its result. *)
Lemma tool_results_follow_requests_email :
  exists results s3,
    tool_result_ids results = ["call_1"]
    /\ ConnectionsChat.chat_loop records_email 2 1 (at_loop records_email "What is your email?")
       = ConnectionsChat.chat_loop records_email 1 1 s3
    /\ cell 1 s3
       = cell 1 (at_loop records_email "What is your email?")
         ++ [PMessage (message (tool_answer [request "call_1" "record_user_details" args_email]))]
         ++ results.
Proof.
  pose (W := records_email).
  pose (s := at_loop W "What is your email?").
  pose (tcs := [request "call_1" "record_user_details" args_email]).
  pose (out := ConnectionsChat.handle_tool_calls W (ConnectionsChat.nested_chat W 1) (Some tcs)
                 (emit (EvCompletion (cell 1 s)) s).2).
  destruct (tool_results_follow_requests W 1 1 s (tool_answer tcs) tcs) as [Hok _].
  - vm_compute. lia.
  - vm_compute. reflexivity.
  - reflexivity.
  - reflexivity.
  - destruct (Hok (returned out) out.2) as (_ & Hids & s3 & Heq & Hcell & _).
    + vm_compute. reflexivity.
    + exists (returned out), s3. split; [exact Hids | split; [exact Heq | exact Hcell]].
Defined.

(** C1 as stated fails: the model leaves out the email, the call of
    [record_user_details] is a [TypeError], [chat] ends with it after its one
    call to the endpoint, and the request has no result in the messages. *)
Lemma tool_result_missing_when_dispatch_raises :
  (ConnectionsChat.chat omits_email 5 (PStr "What is your email?") 0 (start [])).1
  = Raise TypeError
  /\ tool_result_ids
       (cell 1 (ConnectionsChat.chat omits_email 5 (PStr "What is your email?") 0 (start [])).2)
     <> map id [request "call_1" "record_user_details" args_empty]
  /\ length (model_calls
       (trace (ConnectionsChat.chat omits_email 5 (PStr "What is your email?") 0 (start [])).2))
     = 1.
Proof.
  split; [vm_compute; reflexivity |]. split; [vm_compute; discriminate | vm_compute; reflexivity].
Qed.



(** C8 at work: the model asks for "push". *)
Lemma push_is_reachable_by_name_hi :
  ConnectionsChat.handle_each answers_at_once (ConnectionsChat.nested_chat answers_at_once 1)
    [request "call_1" "push" args_message] [] (start [])
  = (emit (EvPrint "Tool called: push");;
     ConnectionsChat.push answers_at_once (PStr "hi");;
     ConnectionsChat.handle_each answers_at_once (ConnectionsChat.nested_chat answers_at_once 1)
       [] ([] ++ [ConnectionsChat.tool_message "null" "call_1"])) (start []).
Proof.
  apply (push_is_reachable_by_name answers_at_once
           (ConnectionsChat.nested_chat answers_at_once 1)
           (request "call_1" "push" args_message) [] [] (start []) (PStr "hi")).
  - reflexivity.
  - reflexivity.
Defined.




(** The regeneration request of that scenario holds the feedback. *)
Example regeneration_holds_feedback :
  match model_calls
          (trace (ProfileChatbot.chat judge_rejects "Tell me about yourself" 0 (start earlier)).2)
  with
  | [_; PDict [_; (_, PStr system)] :: _] => contains "too informal" system
  | _ => false
  end = true.
Proof. vm_compute. reflexivity. Qed.

(** C5 at work: the judge's answer does not validate. *)
Lemma judge_failure_is_an_error_validation :
  exists s',
    ProfileChatbot.chat judge_unparsed "Tell me about yourself" 0 (start earlier)
    = (Raise (APIError "validation"), s').
Proof.
  destruct (judge_failure_is_an_error judge_unparsed "Tell me about yourself" 0 (start earlier)
              (text_answer "yo")) as [Hraises _].
  - vm_compute. lia.
  - vm_compute. reflexivity.
  - destruct (Hraises (APIError "validation")) as (s' & H & _).
    + reflexivity.
    + exists s'. exact H.
Defined.


(** C9 fails on the code.  With both credentials set and a standard output
    that cannot encode the marks of the report lines, the notification is
    sent, the report line raises inside the [try], the second [except] clause
    is entered, and its own report line raises again: the exception leaves
    [push], the recording function, the dispatch and [chat]. *)
Theorem handlers_raise_when_report_line_unprintable :
  (ConnectionsChat.record_user_details (on_plain_stdout records_email)
     (PStr "a@b.com") (PStr "Name not provided") (PStr "not provided") (start [])).1
  = Raise UnicodeEncodeError
  /\ (ConnectionsChat.record_unknown_question (on_plain_stdout records_email)
        (PStr "favourite colour?") (start [])).1
     = Raise UnicodeEncodeError
  /\ In (EvPost (PStr "Recording favourite colour? asked that I couldn't answer") Delivered)
       (trace (ConnectionsChat.record_unknown_question (on_plain_stdout records_email)
                 (PStr "favourite colour?") (start [])).2)
  /\ (ConnectionsChat.record_unknown_question (on_plain_stdout records_email_offline)
        (PStr "favourite colour?") (start [])).1
     = Raise UnicodeEncodeError
  /\ (ConnectionsChat.chat (on_plain_stdout records_email) 5 (PStr "What is your email?") 0
        (start [])).1
     = Raise UnicodeEncodeError.
Proof.
  repeat split; try (vm_compute; reflexivity). vm_compute. auto.
Qed.

End Examples.

(** ** More about the two scripts *)

(** The Pushover requests made, in order: what was sent and what came of it. *)
Definition posts (t : list event) : list (pyval * post_result) :=
  flat_map (fun e => match e with EvPost sent r => [(sent, r)] | _ => [] end) t.

(** The message sequences sent to the judge, in order. *)
Definition judge_calls (t : list event) : list (list pyval) :=
  flat_map (fun e => match e with EvJudge sent => [sent] | _ => [] end) t.

(** The parameters of the functions the module defines: those without a
    default, and those with one. *)
Definition signature (f : ConnectionsChat.modfun) : list string * list string :=
  match f with
  | ConnectionsChat.Fpush => (["message"], [])
  | ConnectionsChat.Frecord_user_details => (["email"], ["name"; "notes"])
  | ConnectionsChat.Frecord_unknown_question => (["question"], [])
  | ConnectionsChat.Fhandle_tool_calls => (["tool_calls"], [])
  | ConnectionsChat.Fchat => (["message"; "history"], [])
  end.

(** The text [json.dumps] gives for what the recording functions return. *)
Definition recorded_ok_text : string :=
  "{" +:+ json_string "recorded" +:+ ": " +:+ json_string "ok" +:+ "}".

(** Whether the keywords of [arguments] bind to the parameters of [f]. *)
Definition fits (f : ConnectionsChat.modfun) (arguments : pyval) : bool :=
  match arguments with
  | PDict kw => ConnectionsChat.accepts (signature f).1 (signature f).2 kw
  | _ => false
  end.

Section DriverMore.

Import ConnectionsChat.

Context (W : world).

Lemma posts_app t1 t2 : posts (t1 ++ t2) = posts t1 ++ posts t2.
Proof. apply flat_map_app. Qed.

(** *** [push] and the credentials *)




(** *** Requests for the advertised tools *)

Lemma dispatch_found chat_rec tc rest results s v g :
  json_loads W (function_arguments tc) = Some v ->
  globals_get W (function_name tc) = Some g ->
  truthy g = true ->
  handle_each W chat_rec (tc :: rest) results s
  = (do result <- call W chat_rec g v;
     do content <- match json_dumps result with
                   | Some text => ret text
                   | None => raise TypeError
                   end;
     handle_each W chat_rec rest (results ++ [tool_message content (id tc)]))
      (emit (EvPrint ("Tool called: " +:+ function_name tc)) s).2.
Proof. intros Hv Hg Ht. cbn [handle_each]. rewrite Hv, Hg, Ht. reflexivity. Qed.

(** When [push] returns, what follows it runs; when it raises, nothing
    does. *)
Lemma after_push {B} (message : pyval) (k : M B) s :
  (forall s1, push W message s = (Ret PNone, s1) -> (push W message;; k) s = k s1)
  /\ (forall e s1, push W message s = (Raise e, s1) -> (push W message;; k) s = (Raise e, s1)).
Proof. split; [intros s1 H | intros e s1 H]; unfold bind; by rewrite H. Qed.

(** X2.  A request for "record_user_details" whose arguments decode to a
    dict that gives "email" and otherwise at most "name" and "notes" runs
    [push] once, on the text made of the three values, with "Name not
    provided" and "not provided" for a name and notes that are left out.
    When [push] returns, the request is answered with the text for recorded
    ok and the loop goes on with the requests that remain; when [push]
    raises, its exception leaves the dispatch. *)
Theorem record_user_details_request chat_rec tc rest results s kw :
  function_name tc = "record_user_details" ->
  json_loads W (function_arguments tc) = Some (PDict kw) ->
  accepts ["email"] ["name"; "notes"] kw = true ->
  let text := PStr ("Recording interest from "
                    +:+ py_str W (arg "name" (PStr "Name not provided") kw)
                    +:+ " with email " +:+ py_str W (arg "email" PNone kw)
                    +:+ " and notes " +:+ py_str W (arg "notes" (PStr "not provided") kw)) in
  let s0 := (emit (EvPrint "Tool called: record_user_details") s).2 in
  handle_each W chat_rec (tc :: rest) results s
  = (emit (EvPrint "Tool called: record_user_details");;
     push W text;;
     handle_each W chat_rec rest (results ++ [tool_message recorded_ok_text (id tc)])) s
  /\ (forall s1,
        push W text s0 = (Ret PNone, s1) ->
        handle_each W chat_rec (tc :: rest) results s
        = handle_each W chat_rec rest (results ++ [tool_message recorded_ok_text (id tc)]) s1)
  /\ (forall e s1,
        push W text s0 = (Raise e, s1) ->
        handle_each W chat_rec (tc :: rest) results s = (Raise e, s1)).
Proof.
  intros Hname Hv Hacc text s0.
  assert (handle_each W chat_rec (tc :: rest) results s
          = (push W text;;
             handle_each W chat_rec rest (results ++ [tool_message recorded_ok_text (id tc)])) s0)
    as Heq.
  { rewrite (dispatch_found chat_rec tc rest results s (PDict kw) (GFun Frecord_user_details));
      [| done | by rewrite Hname | done].
    rewrite Hname. cbn [call]. rewrite Hacc.
    unfold record_user_details. rewrite bind_assoc.
    apply bind_push_ext. reflexivity. }
  split; [by rewrite bind_emit |].
  rewrite Heq. apply after_push.
Qed.

(** X3.  A request for "record_unknown_question" whose arguments decode to
    a dict with the one key "question" runs [push] once, on the text made of
    the question.  When [push] returns, the request is answered with the text
    for recorded ok and the loop goes on with the requests that remain; when
    [push] raises, its exception leaves the dispatch. *)
Theorem record_unknown_question_request chat_rec tc rest results s question :
  function_name tc = "record_unknown_question" ->
  json_loads W (function_arguments tc) = Some (PDict [("question", question)]) ->
  let text := PStr ("Recording " +:+ py_str W question +:+ " asked that I couldn't answer") in
  let s0 := (emit (EvPrint "Tool called: record_unknown_question") s).2 in
  handle_each W chat_rec (tc :: rest) results s
  = (emit (EvPrint "Tool called: record_unknown_question");;
     push W text;;
     handle_each W chat_rec rest (results ++ [tool_message recorded_ok_text (id tc)])) s
  /\ (forall s1,
        push W text s0 = (Ret PNone, s1) ->
        handle_each W chat_rec (tc :: rest) results s
        = handle_each W chat_rec rest (results ++ [tool_message recorded_ok_text (id tc)]) s1)
  /\ (forall e s1,
        push W text s0 = (Raise e, s1) ->
        handle_each W chat_rec (tc :: rest) results s = (Raise e, s1)).
Proof.
  intros Hname Hv text s0.
  assert (handle_each W chat_rec (tc :: rest) results s
          = (push W text;;
             handle_each W chat_rec rest (results ++ [tool_message recorded_ok_text (id tc)])) s0)
    as Heq.
  { rewrite (dispatch_found chat_rec tc rest results s (PDict [("question", question)])
               (GFun Frecord_unknown_question)); [| done | by rewrite Hname | done].
    rewrite Hname.
    change (call W chat_rec (GFun Frecord_unknown_question) (PDict [("question", question)]))
      with (record_unknown_question W question).
    unfold record_unknown_question. rewrite bind_assoc.
    apply bind_push_ext. reflexivity. }
  split; [by rewrite bind_emit |].
  rewrite Heq. apply after_push.
Qed.

(** *** Requests that do not fit *)

(** [accepts] is keyword binding: no keyword outside the parameters, no
    parameter without a default left out. *)
Lemma accepts_spec required optional kw :
  accepts required optional kw = true
  <-> (forall k, In k (map fst kw) -> In k (required ++ optional))
      /\ (forall r, In r required -> exists v, dict_get r kw = Some v).
Proof.
  unfold accepts. rewrite andb_true_iff, !forallb_forall. split.
  - intros [Hk Hr]. split.
    + intros k Hin. apply Hk in Hin. apply existsb_exists in Hin as (k' & Hin' & Heq).
      apply String.eqb_eq in Heq. by subst.
    + intros r Hin. apply Hr in Hin. destruct (dict_get r kw); [eauto | done].
  - intros [Hk Hr]. split.
    + intros k Hin. apply existsb_exists. exists k. split; [by apply Hk | apply String.eqb_refl].
    + intros r Hin. by destruct (Hr r Hin) as [v ->].
Qed.

(** X4.  When the name of a request is bound to a function of the module
    and the decoded arguments do not bind to its parameters (they are no
    dict, a keyword is no parameter, or a parameter without a default is
    missing), the dispatch ends with a [TypeError] right after the "Tool
    called" line: the function has not run, so nothing was sent. *)
Theorem misfit_request_raises_before_running chat_rec tc rest results s f arguments :
  json_loads W (function_arguments tc) = Some arguments ->
  globals_get W (function_name tc) = Some (GFun f) ->
  fits f arguments = false ->
  handle_each W chat_rec (tc :: rest) results s
  = (Raise TypeError, (emit (EvPrint ("Tool called: " +:+ function_name tc)) s).2)
  /\ posts (trace (handle_each W chat_rec (tc :: rest) results s).2) = posts (trace s).
Proof.
  intros Hv Hg Hfit.
  assert (handle_each W chat_rec (tc :: rest) results s
          = (Raise TypeError, (emit (EvPrint ("Tool called: " +:+ function_name tc)) s).2)) as H.
  { rewrite (dispatch_found chat_rec tc rest results s arguments (GFun f)) by done.
    unfold bind at 1.
    assert (forall s1, call W chat_rec (GFun f) arguments s1 = (Raise TypeError, s1)) as ->; [| done].
    intros s1. destruct arguments; try done.
    destruct f; cbn [call fits signature fst snd] in *; by rewrite Hfit. }
  split; [exact H |]. rewrite H. cbn [snd]. rewrite trace_emit, posts_app. cbn.
  by rewrite app_nil_r.
Qed.

(** *** A failure after some requests were served *)

(** X5.  When some requests have been served and the arguments of the
    next one do not decode, the dispatch ends with the [JSONDecodeError] in
    the state the served requests left: what they did stays done, and their
    results are returned to nobody. *)
Theorem later_failure_keeps_effects chat_rec served tc rest : forall acc s results s1,
  handle_each W chat_rec served acc s = (Ret results, s1) ->
  json_loads W (function_arguments tc) = None ->
  handle_each W chat_rec (served ++ tc :: rest) acc s = (Raise JSONDecodeError, s1).
Proof.
  induction served as [| d served IH]; intros acc s results s1 Hserved Hv.
  - injection Hserved as <- <-. cbn [app handle_each]. by rewrite Hv.
  - cbn [app handle_each] in *.
    apply bind_Ret in Hserved as (arguments & s2 & H1 & Hserved). unfold bind at 1. rewrite H1.
    apply bind_Ret in Hserved as (u & s3 & H2 & Hserved). unfold bind at 1. rewrite H2.
    apply bind_Ret in Hserved as (result & s4 & H3 & Hserved). unfold bind at 1. rewrite H3.
    apply bind_Ret in Hserved as (text & s5 & H4 & Hserved). unfold bind at 1. rewrite H4.
    by eapply IH.
Qed.

(** *** The loop has no bound of its own *)

(** X6.  With an endpoint that always answers "tool_calls" with an empty
    list of requests, the loop never comes to a reply: whatever the number
    of passes allowed, it uses them all, calls the endpoint once in each, and
    appends the assistant message once in each. *)
Theorem empty_tool_calls_never_end r0 :
  (forall t sent, completions_create W t sent = inr r0) ->
  finish_reason r0 = "tool_calls" ->
  tool_calls (Py.message r0) = Some [] ->
  forall n m s,
    m < length (heap s) ->
    exists s',
      chat_loop W n m s = (OutOfFuel, s')
      /\ cell m s' = cell m s ++ repeat (PMessage (Py.message r0)) n
      /\ length (model_calls (trace s')) = length (model_calls (trace s)) + n.
Proof.
  intros Hr Hfin Htcs. induction n as [| n IH]; intros m s Hm.
  - exists s. cbn. rewrite app_nil_r. split; [done | split; [done | lia]].
  - rewrite chat_loop_unfold, Hr.
    set (s1 := (emit (EvCompletion (cell m s)) s).2).
    pose proof (after_answer_tool_calls W (nested_chat W n) m s1 r0 (nested_chat_frame W n)
                  Hm Hfin) as Hpass.
    pose proof (evolves_after_answer W (nested_chat W n) m (inr r0) s1 (nested_chat_frame W n))
      as (Hlen & _).
    rewrite Htcs in Hpass. cbn [handle_tool_calls handle_each ret] in Hpass.
    destruct Hpass as (s3 & Hs3 & Hcell & Htrace).
    rewrite Hs3 in Hlen. cbn [snd] in Hlen.
    unfold bind at 1. rewrite Hs3.
    destruct (IH m s3) as (s' & Hloop & Hcell' & Hcalls); [subst s1; cbn in *; lia |].
    exists s'. split; [exact Hloop |]. split.
    + rewrite Hcell', Hcell. subst s1. rewrite cell_emit. cbn [repeat].
      rewrite <- !app_assoc. reflexivity.
    + rewrite Hcalls, Htrace. subst s1. rewrite trace_emit, model_calls_app, length_app. cbn. lia.
Qed.

(** *** What [chat] returns *)

(** X7.  A reply that the loop returns is the text of the answer to the
    last thing the turn did, a call to the endpoint, and that answer had a
    finish reason other than "tool_calls": the text of an answer that asks
    for tools is never returned. *)
Theorem returned_reply_is_a_final_answer n : forall m s reply s',
  chat_loop W n m s = (Ret reply, s') ->
  exists t sent r,
    completions_create W t sent = inr r
    /\ finish_reason r <> "tool_calls"
    /\ reply = content (Py.message r)
    /\ trace s' = t ++ [EvCompletion sent].
Proof.
  induction n as [| n IH]; intros m s reply s' H; [discriminate |].
  rewrite chat_loop_unfold in H.
  set (s1 := (emit (EvCompletion (cell m s)) s).2) in *.
  apply bind_Ret in H as ([[] r] & s2 & Hpass & H).
  - injection H as <- <-.
    unfold after_answer in Hpass.
    destruct (completions_create W (trace s) (cell m s)) as [e | r'] eqn:Hr; [discriminate |].
    rewrite bind_lift_inr in Hpass.
    destruct (String.eqb (finish_reason r') "tool_calls") eqn:Hfin.
    + cbv zeta in Hpass. apply bind_Ret in Hpass as (results & s3 & _ & Hpass).
      apply bind_Ret in Hpass as (u & s4 & _ & Hpass).
      apply bind_Ret in Hpass as (u' & s5 & _ & Hpass). discriminate.
    + injection Hpass as -> <-.
      exists (trace s), (cell m s), r. split; [done |]. split; [by apply String.eqb_neq |].
      split; [done |]. subst s1. by rewrite trace_emit.
  - destruct (IH m s2 reply s' H) as (t & sent & r' & H1 & H2 & H3 & H4). eauto 10.
Qed.

(** X8.  When the first call to the endpoint raises, [chat] ends with that
    exception and has done nothing but that call: it is not tried again, and
    no reply is made up. *)
Theorem endpoint_error_ends_chat n (message : pyval) (history : loc) s e :
  let sent := [system_message W] ++ cell history s ++ [user_message message] in
  completions_create W (trace s) sent = inl e ->
  exists s',
    chat W (S n) message history s = (Raise e, s')
    /\ trace s' = trace s ++ [EvCompletion sent].
Proof.
  intros sent He. unfold chat, chat_with. run. fold sent.
  rewrite chat_loop_unfold, cell_alloc_new, trace_alloc, He.
  unfold after_answer. rewrite bind_assoc, bind_lift_inl.
  eexists. split; [reflexivity |]. by rewrite trace_emit, trace_alloc.
Qed.

(** *** Every call carries the whole context *)



(** *** [chat] can be asked for by name *)

Lemma globals_get_chat : globals_get W "chat" = Some (GFun Fchat).
Proof.
  unfold globals_get, module_globals. by destruct (last (pdf_pages W)).
Qed.

(** X10.  "chat" is none of the advertised tools, yet a request for it
    whose arguments decode to a message and a list as history runs [chat]
    again: it calls the endpoint on the system message, that list and that
    message, and when the answer is a final one with a text, the request is
    answered with that text as a JSON string. *)
Theorem chat_is_reachable_by_name n tc rest results s v l r text :
  function_name tc = "chat" ->
  json_loads W (function_arguments tc) = Some (PDict [("message", v); ("history", PList l)]) ->
  let sent := [system_message W] ++ l ++ [user_message v] in
  completions_create W (trace s ++ [EvPrint "Tool called: chat"]) sent = inr r ->
  finish_reason r <> "tool_calls" ->
  content (Py.message r) = Some text ->
  advertised (function_name tc) = false
  /\ exists s2,
       handle_each W (nested_chat W (S n)) (tc :: rest) results s
       = handle_each W (nested_chat W (S n)) rest
           (results ++ [tool_message (json_string text) (id tc)]) s2
       /\ trace s2 = trace s ++ [EvPrint "Tool called: chat"; EvCompletion sent].
Proof.
  intros Hname Hv sent Hr Hfin Htext. split; [rewrite Hname; reflexivity |].
  rewrite (dispatch_found (nested_chat W (S n)) tc rest results s
             (PDict [("message", v); ("history", PList l)]) (GFun Fchat));
    [| done | rewrite Hname; apply globals_get_chat | done].
  rewrite Hname.
  change (call W (nested_chat W (S n)) (GFun Fchat) (PDict [("message", v); ("history", PList l)]))
    with (nested_chat W (S n) v (PList l)).
  unfold nested_chat at 1. unfold chat_on_values, chat_with. run.
  rewrite cell_alloc_new. fold sent.
  change ("Tool called: " +:+ "chat") with "Tool called: chat".
  set (s1 := (alloc l (emit (EvPrint "Tool called: chat") s).2).2).
  assert (chat_loop W (S n) (length (heap s1)) (alloc sent s1).2
          = (Ret (Some text), (emit (EvCompletion sent) (alloc sent s1).2).2)) as Hloop.
  { rewrite chat_loop_unfold, cell_alloc_new, trace_alloc.
    subst s1. rewrite trace_alloc, trace_emit, Hr.
    unfold after_answer. rewrite bind_assoc, bind_lift_inr.
    apply String.eqb_neq in Hfin. rewrite Hfin. run. by rewrite Htext. }
  unfold bind at 1. rewrite Hloop. run.
  eexists. split; [reflexivity |].
  rewrite trace_emit, trace_alloc. subst s1. rewrite trace_alloc, trace_emit.
  by rewrite <- app_assoc.
Qed.

End DriverMore.

Section GateMore.

Import ProfileChatbot.

Context (W : world).

Lemma judge_calls_app t1 t2 : judge_calls (t1 ++ t2) = judge_calls t1 ++ judge_calls t2.
Proof. apply flat_map_app. Qed.

(** X11.  When the generation request raises, [chat] of the profile
    chatbot ends with that exception after that one call: the judge is not
    asked, and nothing is regenerated. *)
Theorem generation_error_ends_gate (message : string) (history : loc) s e :
  let system :=
    if contains "patent" message then system_prompt W +:+ pig_latin else system_prompt W in
  let sent := [role_message "system" system] ++ cell history s
              ++ [role_message "user" message] in
  completions_create W (trace s) sent = inl e ->
  exists s',
    chat W message history s = (Raise e, s')
    /\ trace s' = trace s ++ [EvCompletion sent].
Proof.
  intros system sent He. unfold chat. cbv zeta. fold system. run. fold sent.
  rewrite cell_alloc_new, trace_alloc, He, bind_lift_inl.
  eexists. split; [reflexivity |]. by rewrite trace_emit, trace_alloc.
Qed.

(** Counts the calls in a trace that is written out. *)
Ltac tally :=
  cbv beta; unfold ret, raise; cbn [fst snd];
  repeat rewrite ?trace_emit, ?trace_alloc;
  rewrite ?judge_calls_app, ?model_calls_app, ?length_app; cbn; lia.

(** X12.  Whatever the endpoints answer, one turn of the profile chatbot
    asks the judge at most once and makes at most two completion calls; it
    makes the second one only after it has asked the judge. *)
Theorem gate_call_bounds (message : string) (history : loc) s :
  let t := trace s in
  let t' := trace (chat W message history s).2 in
  length (judge_calls t') <= length (judge_calls t) + 1
  /\ length (model_calls t') <= length (model_calls t) + 2
  /\ (length (model_calls t') = length (model_calls t) + 2 ->
      length (judge_calls t') = length (judge_calls t) + 1).
Proof.
  cbv zeta. unfold chat. cbv zeta. run.
  match goal with |- context [lift ?x] => destruct x as [e | r] end;
    [rewrite bind_lift_inl; tally |].
  rewrite bind_lift_inr. unfold evaluate. run.
  match goal with |- context [lift ?x] => destruct x as [e | [ev |]] end;
    [rewrite bind_lift_inl; tally | rewrite bind_lift_inr | rewrite bind_lift_inr; tally].
  destruct (is_acceptable ev); run; [tally |].
  unfold rerun. cbv zeta. run.
  match goal with |- context [lift ?x] => destruct x as [e | r2] end;
    [rewrite bind_lift_inl | rewrite bind_lift_inr]; tally.
Qed.

End GateMore.

(** *** The profile text *)

Lemma extract_from acc pages :
  fold_left (fun acc text => if nonempty text then acc +:+ text else acc) pages acc
  = acc +:+ foldr String.append "" pages.
Proof.
  revert acc. induction pages as [| text pages IH]; intros acc; cbn [fold_left foldr].
  - by rewrite append_nil_r.
  - rewrite IH. destruct text as [| c text]; cbn [nonempty str_truthy].
    + reflexivity.
    + by rewrite append_assoc.
Qed.

(** X13.  The profile text both scripts build from the PDF is the texts of
    its pages, one after the other: skipping the pages without text leaves
    nothing out, and the text of a document is the text of its first pages
    followed by the text of the rest. *)
Theorem extract_all_is_concatenation pages more :
  extract_all pages = foldr String.append "" pages
  /\ extract_all (pages ++ more) = extract_all pages +:+ extract_all more.
Proof.
  assert (forall l, extract_all l = foldr String.append "" l) as H.
  { intros l. unfold extract_all. by rewrite extract_from. }
  split; [apply H |]. rewrite !H. induction pages as [| text pages IH]; [done |].
  cbn [app foldr]. by rewrite IH, append_assoc.
Qed.

(** ** More examples *)

Module Scenes.

Import Sample.

(** An endpoint that asks for no tool at all, every time. *)
Definition always_asks : ConnectionsChat.world :=
  {| ConnectionsChat.getenv := getenv;
     ConnectionsChat.pdf_pages := ["Engineer."];
     ConnectionsChat.summary_txt := "Builds things.";
     ConnectionsChat.interpreter_globals := interpreter_globals;
     ConnectionsChat.json_loads := json_loads;
     ConnectionsChat.py_repr := fun _ => "<object>";
     ConnectionsChat.completions_create := fun _ _ => inr (tool_answer []);
     ConnectionsChat.requests_post := fun _ _ => Delivered;
     ConnectionsChat.report_print := fun _ _ => None;
     ConnectionsChat.imported_call := fun _ _ _ => inr (PObj "object") |}.

(** The endpoint cannot be reached. *)
Definition unreachable : ConnectionsChat.world := career [] Delivered.

Definition args_chat : string :=
  "{" +:+ member "message" "hi" +:+ ", " +:+ json_string "history" +:+ ": []}".

(** [json.loads] on [args_chat], the one text this world is asked about. *)
Definition json_loads_chat (text : string) : option pyval :=
  if String.eqb text args_chat then Some (PDict [("message", PStr "hi"); ("history", PList [])])
  else None.

(** The endpoint answers "Hello!" to whatever it is asked first. *)
Definition says_hello : ConnectionsChat.world :=
  {| ConnectionsChat.getenv := getenv;
     ConnectionsChat.pdf_pages := ["Engineer."];
     ConnectionsChat.summary_txt := "Builds things.";
     ConnectionsChat.interpreter_globals := interpreter_globals;
     ConnectionsChat.json_loads := json_loads_chat;
     ConnectionsChat.py_repr := fun _ => "<object>";
     ConnectionsChat.completions_create := scripted [inr (text_answer "Hello!")];
     ConnectionsChat.requests_post := fun _ _ => Delivered;
     ConnectionsChat.report_print := fun _ _ => None;
     ConnectionsChat.imported_call := fun _ _ _ => inr (PObj "object") |}.


(** The generation endpoint cannot be reached. *)
Definition generation_down : ProfileChatbot.world :=
  profile [] (inr (Some {| is_acceptable := true; feedback := "fine" |})).

End Scenes.

Section MoreExamples.

Import Sample Scenes.

(** Without the token, nothing is sent. *)
Example push_without_token_sends_nothing :
  posts (trace (ConnectionsChat.push
                  {| ConnectionsChat.getenv :=
                       fun k => if String.eqb k "PUSHOVER_USER" then Some "u_key" else None;
                     ConnectionsChat.pdf_pages := [];
                     ConnectionsChat.summary_txt := "";
                     ConnectionsChat.interpreter_globals := fun _ => None;
                     ConnectionsChat.json_loads := json_loads;
                     ConnectionsChat.py_repr := fun _ => "<object>";
                     ConnectionsChat.completions_create := scripted [];
                     ConnectionsChat.requests_post := fun _ _ => Delivered;
                     ConnectionsChat.report_print := fun _ _ => None;
                     ConnectionsChat.imported_call := fun _ _ _ => inr (PObj "object") |}
                  (PStr "hi") (start [])).2)
  = [].
Proof. vm_compute. reflexivity. Qed.



(** X2 at work: only the email is given. *)
Lemma record_user_details_request_email :
  (ConnectionsChat.handle_each records_email (ConnectionsChat.nested_chat records_email 1)
     [request "call_1" "record_user_details" args_email] [] (start [])).1
  = Ret [ConnectionsChat.tool_message recorded_ok_text "call_1"].
Proof.
  pose (out := ConnectionsChat.push records_email
                 (PStr "Recording interest from Name not provided with email a@b.com and notes not provided")
                 (emit (EvPrint "Tool called: record_user_details") (start [])).2).
  destruct (record_user_details_request records_email
              (ConnectionsChat.nested_chat records_email 1)
              (request "call_1" "record_user_details" args_email) [] [] (start [])
              [("email", PStr "a@b.com")]) as (_ & Hreturns & _).
  - reflexivity.
  - reflexivity.
  - reflexivity.
  - rewrite (Hreturns out.2); [reflexivity | vm_compute; reflexivity].
Defined.

(** X3 at work. *)
Lemma record_unknown_question_request_colour :
  (ConnectionsChat.handle_each answers_at_once (ConnectionsChat.nested_chat answers_at_once 1)
     [request "call_1" "record_unknown_question" args_question] [] (start [])).1
  = Ret [ConnectionsChat.tool_message recorded_ok_text "call_1"].
Proof.
  pose (out := ConnectionsChat.push answers_at_once
                 (PStr "Recording favourite colour? asked that I couldn't answer")
                 (emit (EvPrint "Tool called: record_unknown_question") (start [])).2).
  destruct (record_unknown_question_request answers_at_once
              (ConnectionsChat.nested_chat answers_at_once 1)
              (request "call_1" "record_unknown_question" args_question) [] [] (start [])
              (PStr "favourite colour?")) as (_ & Hreturns & _).
  - reflexivity.
  - reflexivity.
  - rewrite (Hreturns out.2); [reflexivity | vm_compute; reflexivity].
Defined.

(** X3 on a standard output that cannot encode the report lines: the
    exception of [push] leaves the dispatch. *)
Example record_unknown_question_request_plain_stdout :
  (ConnectionsChat.handle_each (on_plain_stdout answers_at_once)
     (ConnectionsChat.nested_chat (on_plain_stdout answers_at_once) 1)
     [request "call_1" "record_unknown_question" args_question] [] (start [])).1
  = Raise UnicodeEncodeError.
Proof. vm_compute. reflexivity. Qed.

(** A request named "chat" calls the endpoint while it is dispatched. *)
Example chat_request_calls_the_endpoint :
  map length
    (model_calls
       (trace (ConnectionsChat.handle_tool_calls says_hello
                 (ConnectionsChat.nested_chat says_hello 1)
                 (Some [request "call_1" "chat" args_chat]) (start [])).2))
  = [2].
Proof. vm_compute. reflexivity. Qed.

(** X4 at work: the email is left out, and nothing is sent. *)
Lemma misfit_request_without_email :
  posts (trace (ConnectionsChat.handle_each omits_email
                  (ConnectionsChat.nested_chat omits_email 1)
                  [request "call_1" "record_user_details" args_empty] [] (start [])).2)
  = posts (trace (start [])).
Proof.
  apply (misfit_request_raises_before_running omits_email
           (ConnectionsChat.nested_chat omits_email 1)
           (request "call_1" "record_user_details" args_empty) [] [] (start [])
           ConnectionsChat.Frecord_user_details (PDict [])).
  - reflexivity.
  - reflexivity.
  - reflexivity.
Defined.

(** X5 at work: the question is recorded and the notification sent, then
    the second request does not decode. *)
Lemma later_failure_after_a_question :
  ConnectionsChat.handle_each answers_at_once (ConnectionsChat.nested_chat answers_at_once 1)
    ([request "call_1" "record_unknown_question" args_question]
     ++ request "call_2" "record_user_details" args_malformed :: []) [] (start [])
  = (Raise JSONDecodeError,
     (ConnectionsChat.handle_each answers_at_once (ConnectionsChat.nested_chat answers_at_once 1)
        [request "call_1" "record_unknown_question" args_question] [] (start [])).2).
Proof.
  apply (later_failure_keeps_effects answers_at_once
           (ConnectionsChat.nested_chat answers_at_once 1)
           [request "call_1" "record_unknown_question" args_question]
           (request "call_2" "record_user_details" args_malformed) [] [] (start [])
           (returned (ConnectionsChat.handle_each answers_at_once
                        (ConnectionsChat.nested_chat answers_at_once 1)
                        [request "call_1" "record_unknown_question" args_question] []
                        (start [])))).
  - vm_compute. reflexivity.
  - reflexivity.
Defined.

(** The notification of that served request was sent. *)
Example later_failure_after_a_question_sent :
  posts (trace (ConnectionsChat.handle_each answers_at_once
                  (ConnectionsChat.nested_chat answers_at_once 1)
                  [request "call_1" "record_unknown_question" args_question;
                   request "call_2" "record_user_details" args_malformed] [] (start [])).2)
  = [(PStr "Recording favourite colour? asked that I couldn't answer", Delivered)].
Proof. vm_compute. reflexivity. Qed.

(** X6 at work: seven passes allowed, seven used. *)
Lemma empty_tool_calls_use_seven_passes :
  exists s',
    ConnectionsChat.chat_loop always_asks 7 1 (at_loop always_asks "Hello") = (OutOfFuel, s')
    /\ length (model_calls (trace s')) = 7.
Proof.
  destruct (empty_tool_calls_never_end always_asks (tool_answer [])) with
    (n := 7) (m := 1) (s := at_loop always_asks "Hello") as (s' & H & _ & Hcalls).
  - reflexivity.
  - reflexivity.
  - reflexivity.
  - vm_compute. lia.
  - exists s'. split; [exact H | exact Hcalls].
Defined.

(** X7 at work: "Thanks!" is the answer to the last call. *)
Lemma thanks_is_a_final_answer :
  exists t sent r,
    ConnectionsChat.completions_create records_email t sent = inr r
    /\ finish_reason r <> "tool_calls"
    /\ Some "Thanks!" = content (message r).
Proof.
  destruct (returned_reply_is_a_final_answer records_email 5 1
              (at_loop records_email "What is your email?") (Some "Thanks!")
              (ConnectionsChat.chat_loop records_email 5 1
                 (at_loop records_email "What is your email?")).2)
    as (t & sent & r & H1 & H2 & H3 & _).
  - vm_compute. reflexivity.
  - exists t, sent, r. split; [exact H1 | split; [exact H2 | exact H3]].
Defined.

(** X8 at work. *)
Lemma endpoint_error_ends_chat_unreachable :
  exists s',
    ConnectionsChat.chat unreachable 1 (PStr "Hello") 0 (start earlier)
    = (Raise (APIError "connection"), s').
Proof.
  destruct (endpoint_error_ends_chat unreachable 0 (PStr "Hello") 0 (start earlier)
              (APIError "connection")) as (s' & H & _).
  - reflexivity.
  - exists s'. exact H.
Defined.


(** X10 at work: the model asks for "chat". *)
Lemma chat_is_reachable_by_name_hello :
  exists s2,
    ConnectionsChat.handle_each says_hello (ConnectionsChat.nested_chat says_hello 1)
      [request "call_1" "chat" args_chat] [] (start [])
    = ConnectionsChat.handle_each says_hello (ConnectionsChat.nested_chat says_hello 1) []
        ([] ++ [ConnectionsChat.tool_message (json_string "Hello!") "call_1"]) s2.
Proof.
  destruct (chat_is_reachable_by_name says_hello 0 (request "call_1" "chat" args_chat) [] []
              (start []) (PStr "hi") [] (text_answer "Hello!") "Hello!")
    as (_ & s2 & H & _).
  - reflexivity.
  - reflexivity.
  - reflexivity.
  - discriminate.
  - reflexivity.
  - exists s2. exact H.
Defined.

(** X11 at work. *)
Lemma generation_error_ends_gate_down :
  exists s',
    ProfileChatbot.chat generation_down "Tell me about yourself" 0 (start earlier)
    = (Raise (APIError "connection"), s').
Proof.
  destruct (generation_error_ends_gate generation_down "Tell me about yourself" 0 (start earlier)
              (APIError "connection")) as (s' & H & _).
  - reflexivity.
  - exists s'. exact H.
Defined.

Example extract_all_skips_nothing :
  extract_all ["Engineer. "; ""; "Ten years."] = "Engineer. Ten years.".
Proof. reflexivity. Qed.

End MoreExamples.
